(** * create_example_excel.py: the example Excel template builder

    The script builds one workbook through the openpyxl object model,
    creates the output directory and saves the workbook, then prints a
    summary.  The development has three layers:

    - [Py]: Python exceptions and computations that return or raise;
    - [Openpyxl] and [Os]: the part of the two libraries' behaviour that
      the script calls (cells, styles, defined names, column
      dimensions; directories, files and standard output);
    - [Script]: the statements of the script, in source order.

    The theorems at the end are about [Script.build] (lines 12-50 of the
    source) and [Script.create_example_excel] (the whole module body). *)

From stdpp Require Import base option list gmap strings pretty.
From Stdlib Require Import Ascii String.

Local Open Scope string_scope.
Local Open Scope nat_scope.

(** ** Python exceptions and effects *)

Module Py.

Inductive Exn : Type :=
  | ValueError
  | TypeError
  | IndexError
  | AttributeError
  | CellCoordinatesException
  | IllegalCharacterError
  | FileNotFoundError
  | FileExistsError
  | NotADirectoryError
  | IsADirectoryError
  | PermissionError.

(** A computation that returns or raises. *)
Definition Res (A : Type) : Type := Exn + A.

Definition raise {A} (e : Exn) : Res A := inl e.

#[global] Instance Res_ret : MRet Res := λ A x, inr x.
#[global] Instance Res_bind : MBind Res := λ A B f m,
  match m with
  | inl e => inl e
  | inr x => f x
  end.

(** Python's [for x in xs: body], the state threaded through it. *)
Fixpoint for_each {A S : Type} (xs : list A) (body : A → S → Res S) (s : S)
  : Res S :=
  match xs with
  | [] => mret s
  | x :: xs' => s' ← body x s; for_each xs' body s'
  end.

End Py.

Export Py.

(** ** The openpyxl object model, as far as the script uses it

    The behaviour is that of openpyxl 3.1, the first release in which
    [wb.defined_names] is a dictionary that takes item assignment.
    Texts are byte strings; the script only uses ASCII in the
    workbook. *)

Module Openpyxl.

(** *** Characters and small parsers *)

Definition in_range (lo hi : nat) (c : ascii) : bool :=
  (lo <=? nat_of_ascii c) && (nat_of_ascii c <=? hi).

Definition is_digit (c : ascii) : bool := in_range 48 57 c.
Definition is_upper (c : ascii) : bool := in_range 65 90 c.
Definition is_lower (c : ascii) : bool := in_range 97 122 c.
Definition is_alpha (c : ascii) : bool := is_upper c || is_lower c.
Definition is_hex (c : ascii) : bool :=
  is_digit c || in_range 65 70 c || in_range 97 102 c.

Definition to_upper (c : ascii) : ascii :=
  if is_lower c then ascii_of_nat (nat_of_ascii c - 32) else c.

Fixpoint string_forall (p : ascii → bool) (s : string) : bool :=
  match s with
  | EmptyString => true
  | String c s' => p c && string_forall p s'
  end.

(** The longest prefix of [s] whose characters satisfy [p], and the rest. *)
Fixpoint span (p : ascii → bool) (s : string) : string * string :=
  match s with
  | EmptyString => (EmptyString, EmptyString)
  | String c s' =>
      if p c then let '(a, b) := span p s' in (String c a, b)
      else (EmptyString, s)
  end.

(** [int(digits)] for a string of decimal digits. *)
Definition int_of_digits (s : string) : nat :=
  foldl (λ acc c, 10 * acc + (nat_of_ascii c - 48)) 0 (list_ascii_of_string s).

(** An optional [$] (the regular expression [[$]?]). *)
Definition opt_dollar (s : string) : bool * string :=
  match s with
  | String "$"%char s' => (true, s')
  | _ => (false, s)
  end.

Definition is_empty (s : string) : bool :=
  match s with EmptyString => true | _ => false end.

(** *** Cell coordinates (openpyxl.utils.cell) *)

(** [column_index_from_string]: "A" is 1, "Z" is 26, "AA" is 27. *)
Definition column_index_from_string (col : string) : nat :=
  foldl (λ acc c, 26 * acc + (nat_of_ascii (to_upper c) - 64)) 0
        (list_ascii_of_string col).

(** [coordinate_from_string], on
    [COORD_RE = ^[$]?([A-Za-z]{1,3})[$]?(\d+)$]; there is no row 0. *)
Definition coordinate_from_string (coord : string) : Res (string * nat) :=
  let '(_, s1) := opt_dollar coord in
  let '(col, s2) := span is_alpha s1 in
  let '(_, s3) := opt_dollar s2 in
  let '(digits, s4) := span is_digit s3 in
  if (1 <=? String.length col) && (String.length col <=? 3)
     && (1 <=? String.length digits) && is_empty s4
  then
    let row := int_of_digits digits in
    if row =? 0 then raise CellCoordinatesException else mret (col, row)
  else raise CellCoordinatesException.

(** A cell key such as ["A1"] as (row, column), both counted from 1. *)
Definition coordinate_to_tuple (coord : string) : Res (nat * nat) :=
  '(col, row) ← coordinate_from_string coord;
  mret (row, column_index_from_string col).

(** *** Styles (openpyxl.styles) *)

Inductive Color : Type :=
  | ColorRGB (rgb : string)
  | ColorTheme (theme : nat).

(** The [RGB] descriptor: six or eight hexadecimal digits; six digits get
    the alpha channel ["00"] in front. *)
Definition Color_of_str (value : string) : Res Color :=
  if string_forall is_hex value then
    if String.length value =? 8 then mret (ColorRGB value)
    else if String.length value =? 6 then mret (ColorRGB ("00" +:+ value))
    else raise ValueError
  else raise ValueError.

Record Font : Type := mkFont {
  font_name : option string;
  font_sz : option nat;
  font_b : bool;
  font_i : bool;
  font_u : option string;
  font_strike : option bool;
  font_color : option Color;
  font_family : option nat;
  font_scheme : option string
}.

(** [Font()] with every argument left at its default. *)
Definition Font_init : Font :=
  {| font_name := None; font_sz := None; font_b := false; font_i := false;
     font_u := None; font_strike := None; font_color := None;
     font_family := None; font_scheme := None |}.

(** [Font(bold=True)]: [bold] is the alias of [b]. *)
Definition Font_bold (bold : bool) : Font :=
  {| font_name := None; font_sz := None; font_b := bold; font_i := false;
     font_u := None; font_strike := None; font_color := None;
     font_family := None; font_scheme := None |}.

(** The font of a cell that was never styled. *)
Definition DEFAULT_FONT : Font :=
  {| font_name := Some "Calibri"; font_sz := Some 11; font_b := false;
     font_i := false; font_u := None; font_strike := None;
     font_color := Some (ColorTheme 1); font_family := Some 2;
     font_scheme := Some "minor" |}.

Definition fills : list string :=
  [ "solid"; "darkDown"; "darkGray"; "darkGrid"; "darkHorizontal";
    "darkTrellis"; "darkUp"; "darkVertical"; "gray0625"; "gray125";
    "lightDown"; "lightGray"; "lightGrid"; "lightHorizontal";
    "lightTrellis"; "lightUp"; "lightVertical"; "mediumGray" ].

Record PatternFill : Type := mkPatternFill {
  patternType : option string;
  fgColor : Color;
  bgColor : Color
}.

(** [Color()]: opaque-less black. *)
Definition Color_init : Color := ColorRGB "00000000".

(** The fill of a cell that was never styled: [PatternFill()]. *)
Definition DEFAULT_EMPTY_FILL : PatternFill :=
  {| patternType := None; fgColor := Color_init; bgColor := Color_init |}.

(** [PatternFill(start_color=.., end_color=.., fill_type=..)]:
    [start_color], [end_color] and [fill_type] are the aliases of
    [fgColor], [bgColor] and [patternType]; colours given as strings go
    through the [RGB] descriptor, the fill type must be one of [fills]
    or ["none"], which stands for no pattern. *)
Definition PatternFill_init (start_color end_color fill_type : string)
  : Res PatternFill :=
  pt ← (if bool_decide (fill_type = "none") then mret None
        else if bool_decide (fill_type ∈ fills) then mret (Some fill_type)
        else raise ValueError);
  fg ← Color_of_str start_color;
  bg ← Color_of_str end_color;
  mret {| patternType := pt; fgColor := fg; bgColor := bg |}.

(** *** Cells (openpyxl.cell.cell) *)

Inductive DataType : Type :=
  TYPE_NUMERIC | TYPE_STRING | TYPE_FORMULA | TYPE_ERROR.

Definition ERROR_CODES : list string :=
  [ "#NULL!"; "#DIV/0!"; "#VALUE!"; "#REF!"; "#NAME?"; "#NUM!"; "#N/A" ].

Record Cell : Type := mkCell {
  value : option string;
  data_type : DataType;
  font : Font;
  fill : PatternFill
}.

(** A cell as [Worksheet._get_cell] creates it. *)
Definition Cell_init : Cell :=
  {| value := None; data_type := TYPE_NUMERIC;
     font := DEFAULT_FONT; fill := DEFAULT_EMPTY_FILL |}.

(** [ILLEGAL_CHARACTERS_RE]: control characters other than tab, line
    feed and carriage return. *)
Definition is_illegal (c : ascii) : bool :=
  in_range 0 8 c || in_range 11 12 c || in_range 14 31 c.

Fixpoint string_exists (p : ascii → bool) (s : string) : bool :=
  match s with
  | EmptyString => false
  | String c s' => p c || string_exists p s'
  end.

Definition starts_with_eq (s : string) : bool :=
  match s with String "="%char _ => true | _ => false end.

(** [cell.value = v] for a [str]: [check_string] cuts the text at 32767
    characters and refuses illegal characters; a text of more than one
    character that starts with [=] is a formula, one of [ERROR_CODES]
    is an error value. *)
Definition set_value (v : string) (c : Cell) : Res Cell :=
  let v := String.substring 0 (N.to_nat 32767) v in
  if string_exists is_illegal v then raise IllegalCharacterError
  else
    let dt := if (1 <? String.length v) && starts_with_eq v
              then TYPE_FORMULA
              else if bool_decide (v ∈ ERROR_CODES) then TYPE_ERROR
              else TYPE_STRING in
    mret {| value := Some v; data_type := dt; font := font c; fill := fill c |}.

Definition set_font (f : Font) (c : Cell) : Cell :=
  {| value := value c; data_type := data_type c; font := f; fill := fill c |}.

Definition set_fill (f : PatternFill) (c : Cell) : Cell :=
  {| value := value c; data_type := data_type c; font := font c; fill := f |}.

(** *** Column dimensions (openpyxl.worksheet.dimensions) *)

Record ColumnDimension : Type := mkColumnDimension {
  index : string;
  width : Z;
  hidden : bool;
  bestFit : bool
}.

Definition DEFAULT_COLUMN_WIDTH : Z := 13.

(** The dimension that [column_dimensions[key]] creates for a new key. *)
Definition ColumnDimension_init (key : string) : ColumnDimension :=
  {| index := key; width := DEFAULT_COLUMN_WIDTH;
     hidden := false; bestFit := false |}.

Definition set_width (w : Z) (cd : ColumnDimension) : ColumnDimension :=
  {| index := index cd; width := w; hidden := hidden cd;
     bestFit := bestFit cd |}.

(** *** Worksheets (openpyxl.worksheet.worksheet, openpyxl.workbook.child) *)

Record Worksheet : Type := mkWorksheet {
  title : string;
  _cells : gmap (nat * nat) Cell;
  column_dimensions : gmap string ColumnDimension
}.

Definition Worksheet_init (t : string) : Worksheet :=
  {| title := t; _cells := ∅; column_dimensions := ∅ |}.

(** [Worksheet._get_cell]: the cell at (row, column), a fresh one when
    the sheet has none there. *)
Definition _get_cell (rc : nat * nat) (ws : Worksheet) : Cell :=
  default Cell_init (_cells ws !! rc).

(** [sheet[key]] for a single-cell key, followed by an update of the cell
    object it returns.  The cell is the one the sheet holds, so the
    update is seen by every later [sheet[key]]. *)
Definition update_cell (key : string) (f : Cell → Res Cell) (ws : Worksheet)
  : Res Worksheet :=
  rc ← coordinate_to_tuple key;
  c ← f (_get_cell rc ws);
  mret {| title := title ws; _cells := <[rc := c]> (_cells ws);
          column_dimensions := column_dimensions ws |}.

(** [sheet[key] = v] *)
Definition setitem (key v : string) : Worksheet → Res Worksheet :=
  update_cell key (set_value v).

(** [sheet[key].font = f] *)
Definition setitem_font (key : string) (f : Font) : Worksheet → Res Worksheet :=
  update_cell key (λ c, mret (set_font f c)).

(** [sheet[key].fill = f] *)
Definition setitem_fill (key : string) (f : PatternFill)
  : Worksheet → Res Worksheet :=
  update_cell key (λ c, mret (set_fill f c)).

(** [sheet.column_dimensions[key].width = w]: the holder creates the
    dimension of a column on first access. *)
Definition set_column_width (key : string) (w : Z) (ws : Worksheet)
  : Worksheet :=
  let cd := default (ColumnDimension_init key) (column_dimensions ws !! key) in
  {| title := title ws; _cells := _cells ws;
     column_dimensions := <[key := set_width w cd]> (column_dimensions ws) |}.

(** Sheet titles.  [INVALID_TITLE_REGEX] is the character class of the
    backslash (code 92), the star, the question mark, the colon, the
    slash and the two square brackets. *)
Definition is_invalid_title_char (c : ascii) : bool :=
  bool_decide (c ∈ ascii_of_nat 92 :: ["*"; "?"; ":"; "/"; "["; "]"]%char).

Definition to_lower (c : ascii) : ascii :=
  if is_upper c then ascii_of_nat (nat_of_ascii c + 32) else c.

Fixpoint lower (s : string) : string :=
  match s with
  | EmptyString => EmptyString
  | String c s' => String (to_lower c) (lower s')
  end.

(** [s] without the prefix [p], compared without regard to case. *)
Fixpoint strip_prefix_ci (p s : string) : option string :=
  match p, s with
  | EmptyString, _ => Some s
  | String a p', String b s' =>
      if bool_decide (to_lower a = to_lower b) then strip_prefix_ci p' s'
      else None
  | String _ _, EmptyString => None
  end.

(** The count groups that [re.findall] returns on the joined titles for
    the pattern made of the title, any number of digits (the count) and
    an optional comma, case ignored: matches are found left to right
    and do not overlap; [skip] is the number of characters still covered
    by the last match. *)
Fixpoint title_counts (v : string) (skip : nat) (joined : string)
  : list string :=
  match joined with
  | EmptyString => []
  | String _ rest =>
      match skip with
      | S k => title_counts v k rest
      | 0 =>
          match strip_prefix_ci v joined with
          | None => title_counts v 0 rest
          | Some after =>
              let '(digits, after') := span is_digit after in
              let comma := match after' with
                           | String ","%char _ => 1
                           | _ => 0
                           end in
              digits ::
              title_counts v
                (String.length v + String.length digits + comma - 1) rest
          end
      end
  end.

(** [avoid_duplicate_name]: a title that some sheet already bears (up to
    case) gets the next free number appended. *)
Definition avoid_duplicate_name (names : list string) (v : string) : string :=
  if bool_decide (lower v ∈ lower <$> names) then
    let counts :=
      int_of_digits <$>
        filter (λ d, is_empty d = false)
               (title_counts v 0 (String.concat "," names)) in
    v +:+ pretty (foldr max 0 counts + 1)
  else v.

(** [sheet.title = v], [names] being the titles of the workbook's
    sheets. *)
Definition set_title (names : list string) (v : string) (ws : Worksheet)
  : Res Worksheet :=
  if is_empty v then raise ValueError
  else if string_exists is_invalid_title_char v then raise ValueError
  else
    let v' := if bool_decide (title ws = v) then v
              else avoid_duplicate_name names v in
    mret {| title := v'; _cells := _cells ws;
            column_dimensions := column_dimensions ws |}.

(** *** Defined names (openpyxl.workbook.defined_name) *)

Record DefinedName : Type := mkDefinedName {
  name : string;
  comment : option string;
  customMenu : option string;
  description : option string;
  help : option string;
  statusBar : option string;
  localSheetId : option nat;
  dn_hidden : option bool;
  function : option bool;
  vbProcedure : option bool;
  xlm : option bool;
  functionGroupId : option nat;
  shortcutKey : option string;
  publishToServer : option bool;
  workbookParameter : option bool;
  attr_text : option string
}.

(** [DefinedName.__init__], its parameters in the order of the
    signature: [name], [comment], [customMenu], [description], [help],
    [statusBar], [localSheetId], [hidden], [function], [vbProcedure],
    [xlm], [functionGroupId], [shortcutKey], [publishToServer],
    [workbookParameter], [attr_text]; all but [name] default to [None].
    The text of the reference is [attr_text] (alias [value]), the last
    parameter. *)
Definition DefinedName_init := mkDefinedName.

(** A reference to one corner of a range: [$A$2] has both flags set. *)
Record Anchor : Type := mkAnchor {
  col_abs : bool;
  col : nat;
  row_abs : bool;
  row : nat
}.

Record Destination : Type := mkDestination {
  dest_sheet : string;
  dest_min : Anchor;
  dest_max : Anchor
}.

Definition absolute (a : Anchor) : bool := col_abs a && row_abs a.

(** One corner, [[$]?[A-Za-z]{1,3}[$]?\d+], and the rest of the text. *)
Definition parse_anchor (s : string) : option (Anchor * string) :=
  let '(ca, s1) := opt_dollar s in
  let '(c, s2) := span is_alpha s1 in
  let '(ra, s3) := opt_dollar s2 in
  let '(digits, s4) := span is_digit s3 in
  if (1 <=? String.length c) && (String.length c <=? 3)
     && (1 <=? String.length digits)
  then Some ({| col_abs := ca; col := column_index_from_string c;
                row_abs := ra; row := int_of_digits digits |}, s4)
  else None.

(** The inside of a quoted sheet title up to its closing quote, a
    doubled quote standing for one quote of the title. *)
Fixpoint parse_quoted (s : string) : option (string * string) :=
  match s with
  | EmptyString => None
  | String "'"%char (String "'"%char s') =>
      '(t, rest) ← parse_quoted s'; Some (String "'"%char t, rest)
  | String "'"%char rest => Some (EmptyString, rest)
  | String c s' => '(t, rest) ← parse_quoted s'; Some (String c t, rest)
  end.

Definition is_unquoted_title_char (c : ascii) : bool :=
  negb (bool_decide (c ∈ ["'"; "^"; " "; "!"]%char)).

(** The sheet title in front of a reference ([SHEET_TITLE]): quoted, or
    a run of characters other than quote, caret, space and [!]; then
    the [!]. *)
Definition parse_sheet_title (s : string) : option (string * string) :=
  '(t, rest) ← match s with
               | String "'"%char s' => parse_quoted s'
               | _ => Some (span is_unquoted_title_char s)
               end;
  match rest with
  | String "!"%char rest' => Some (t, rest')
  | _ => None
  end.

(** A whole text read as one sheet-qualified cell or area
    ([SHEETRANGE_RE] with both corners given by column and row). *)
Definition parse_sheet_range (s : string) : option Destination :=
  '(t, s1) ← parse_sheet_title s;
  '(a, s2) ← parse_anchor s1;
  match s2 with
  | EmptyString => Some {| dest_sheet := t; dest_min := a; dest_max := a |}
  | String ":"%char s3 =>
      '(b, s4) ← parse_anchor s3;
      if is_empty s4
      then Some {| dest_sheet := t; dest_min := a; dest_max := b |}
      else None
  | _ => None
  end.

(** What a defined name refers to: the sheet and cells its [attr_text]
    denotes; nothing when it has no text or the text is no range. *)
Definition destination (dn : DefinedName) : option Destination :=
  attr_text dn ≫= parse_sheet_range.

(** [DefinedNameDict.__setitem__]: the key must be the name of the
    value; then plain [dict] assignment. *)
Definition defined_names_setitem (key : string) (dn : DefinedName)
    (names : gmap string DefinedName) : Res (gmap string DefinedName) :=
  if bool_decide (name dn = key) then mret (<[key := dn]> names)
  else raise ValueError.

(** *** Workbooks (openpyxl.workbook.workbook) *)

Record Workbook : Type := mkWorkbook {
  _sheets : list Worksheet;
  _active_sheet_index : nat;
  defined_names : gmap string DefinedName
}.

(** [Workbook()]: one sheet, titled ["Sheet"], which is the active one. *)
Definition Workbook_init : Workbook :=
  {| _sheets := [Worksheet_init "Sheet"]; _active_sheet_index := 0;
     defined_names := ∅ |}.

Definition sheetnames (wb : Workbook) : list string := title <$> _sheets wb.

(** A worksheet object is shared between the workbook and the variable
    that holds it: a reference to a sheet is its position in [_sheets]. *)
Definition SheetRef : Type := nat.

(** [wb.active]: [None] when the index is out of range. *)
Definition active (wb : Workbook) : option SheetRef :=
  _ ← _sheets wb !! _active_sheet_index wb; Some (_active_sheet_index wb).

(** A method call or attribute assignment on the sheet behind [r]. *)
Definition on_sheet (r : option SheetRef) (f : Worksheet → Res Worksheet)
    (wb : Workbook) : Res Workbook :=
  match r ≫= (λ i, (λ ws, (i, ws)) <$> _sheets wb !! i) with
  | None => raise AttributeError
  | Some (i, ws) =>
      ws' ← f ws;
      mret {| _sheets := <[i := ws']> (_sheets wb);
              _active_sheet_index := _active_sheet_index wb;
              defined_names := defined_names wb |}
  end.

(** [sheet.title = v] *)
Definition set_sheet_title (r : option SheetRef) (v : string) (wb : Workbook)
  : Res Workbook :=
  on_sheet r (set_title (sheetnames wb) v) wb.

(** [wb.defined_names[key] = dn] *)
Definition set_defined_name (key : string) (dn : DefinedName) (wb : Workbook)
  : Res Workbook :=
  names ← defined_names_setitem key dn (defined_names wb);
  mret {| _sheets := _sheets wb;
          _active_sheet_index := _active_sheet_index wb;
          defined_names := names |}.

(** *** Reading a workbook back *)

(** [wb[title]]: the first sheet that bears the title. *)
Definition getitem_sheet (wb : Workbook) (t : string) : option Worksheet :=
  snd <$> list_find (λ ws, title ws = t) (_sheets wb).

(** The cell a sheet holds under a key such as ["A1"], if any. *)
Definition cell (ws : Worksheet) (key : string) : option Cell :=
  match coordinate_to_tuple key with
  | inr rc => _cells ws !! rc
  | inl _ => None
  end.

(** The (row, column) pairs of a list of cell keys. *)
Definition coordinates (keys : list string) : list (nat * nat) :=
  omap (λ key, match coordinate_to_tuple key with
               | inr rc => Some rc
               | inl _ => None
               end) keys.

Definition styled (c : Cell) : Prop :=
  font c ≠ DEFAULT_FONT ∨ fill c ≠ DEFAULT_EMPTY_FILL.

End Openpyxl.

(** ** The file system and standard output *)

Module Os.

Import Openpyxl.

(** A path is the list of its components, innermost first: the parent
    directory of a path is the tail of the list, and [[]] is the working
    directory.  The model covers relative paths without [.] and [..]
    components, which is what the script uses. *)
Abbreviation Path := (list string).

(** [s.split(sep)] *)
Fixpoint split_on (sep : ascii) (s : string) : list string :=
  match s with
  | EmptyString => [EmptyString]
  | String c s' =>
      if bool_decide (c = sep) then EmptyString :: split_on sep s'
      else match split_on sep s' with
           | x :: xs => String c x :: xs
           | [] => [String c EmptyString]
           end
  end.

Definition path_of (s : string) : Path :=
  reverse (filter (λ x, is_empty x = false) (split_on "/" s)).

(** [posixpath.join(a, b)] *)
Definition path_join (a b : string) : string :=
  match b with
  | String "/"%char _ => b
  | _ =>
      if is_empty a then b
      else if bool_decide (last (list_ascii_of_string a) = Some "/"%char)
           then a +:+ b
           else a +:+ "/" +:+ b
  end.

(** What a file holds: a workbook as openpyxl wrote it, which reads
    back as the workbook that was saved, or other bytes. *)
Inductive Content : Type :=
  | Xlsx (wb : Workbook)
  | Bytes (data : string).

Inductive Node : Type :=
  | Dir (writable : bool)
  | File (writable : bool) (content : Content).

Record World : Type := mkWorld {
  fs : gmap Path Node;
  stdout : list string
}.

(** A computation that returns or raises and changes the world on the
    way; what it changed before raising stays changed. *)
Definition M (A : Type) : Type := World → Res A * World.

#[global] Instance M_ret : MRet M := λ A x w, (inr x, w).
#[global] Instance M_bind : MBind M := λ A B f m w,
  match m w with
  | (inl e, w') => (inl e, w')
  | (inr x, w') => f x w'
  end.

Definition lift {A} (r : Res A) : M A := λ w, (r, w).

(** [try: m  except <handled>: h e] *)
Definition try_except {A} (m : M A) (handled : Exn → bool) (h : Exn → M A)
  : M A := λ w,
  match m w with
  | (inl e, w') => if handled e then h e w' else (inl e, w')
  | r => r
  end.

Definition is_OSError (e : Exn) : bool :=
  match e with
  | FileNotFoundError | FileExistsError | NotADirectoryError
  | IsADirectoryError | PermissionError => true
  | _ => false
  end.

Definition is_FileExistsError (e : Exn) : bool :=
  match e with FileExistsError => true | _ => false end.

Definition set_fs (f : gmap Path Node) (w : World) : World :=
  {| fs := f; stdout := stdout w |}.

(** [os.path.exists] and [os.path.isdir] *)
Definition path_exists (p : Path) : M bool := λ w,
  (inr (bool_decide (is_Some (fs w !! p))), w).

Definition path_isdir (p : Path) : M bool := λ w,
  (inr (match fs w !! p with Some (Dir _) => true | _ => false end), w).

(** [os.mkdir]: the parent must be a directory that can be written and
    the path itself must be free. *)
Definition mkdir (p : Path) : M unit := λ w,
  match p with
  | [] => (raise FileNotFoundError, w)
  | _ :: parent =>
      match fs w !! parent with
      | None => (raise FileNotFoundError, w)
      | Some (File _ _) => (raise NotADirectoryError, w)
      | Some (Dir pw) =>
          match fs w !! p with
          | Some _ => (raise FileExistsError, w)
          | None =>
              if pw then (inr tt, set_fs (<[p := Dir true]> (fs w)) w)
              else (raise PermissionError, w)
          end
      end
  end.

(** The end of [os.makedirs]: [mkdir] inside [try], and
    [except OSError], where the error is raised again unless [exist_ok]
    is set and the path is a directory. *)
Definition mkdir_exist_ok (name : Path) (exist_ok : bool) : M unit :=
  try_except (mkdir name) is_OSError (λ e,
    isd ← path_isdir name;
    if negb exist_ok || negb isd then lift (raise e) else mret tt).

(** [os.makedirs(name, exist_ok=exist_ok)]: when the parent directory
    does not exist it is made first, by the same function (a
    [FileExistsError] from there is passed over); then the directory
    itself. *)
Fixpoint makedirs (name : Path) (exist_ok : bool) : M unit :=
  match name with
  | [] => mkdir []
  | _ :: head =>
      _ ← match head return M unit with
          | [] => mret tt
          | _ :: _ =>
              ex ← path_exists head;
              if ex : bool then mret tt
              else try_except (makedirs head exist_ok) is_FileExistsError
                              (λ _, mret tt)
          end;
      mkdir_exist_ok name exist_ok
  end.

(** Opening a file for writing and replacing its content, as
    [zipfile.ZipFile(filename, "w")] and the writer do. *)
Definition write_file (p : Path) (c : Content) : M unit := λ w,
  match p with
  | [] => (raise IsADirectoryError, w)
  | _ :: parent =>
      match fs w !! parent with
      | None => (raise FileNotFoundError, w)
      | Some (File _ _) => (raise NotADirectoryError, w)
      | Some (Dir pw) =>
          match fs w !! p with
          | Some (Dir _) => (raise IsADirectoryError, w)
          | Some (File fw _) =>
              if fw then (inr tt, set_fs (<[p := File fw c]> (fs w)) w)
              else (raise PermissionError, w)
          | None =>
              if pw then (inr tt, set_fs (<[p := File true c]> (fs w)) w)
              else (raise PermissionError, w)
          end
      end
  end.

(** [wb.save(filename)] *)
Definition save (wb : Workbook) (filename : string) : M unit :=
  write_file (path_of filename) (Xlsx wb).

(** [print(line)] *)
Definition print (line : string) : M unit := λ w,
  (inr tt, {| fs := fs w; stdout := stdout w ++ [line] |}).

(** A file system is a tree when every entry lies in a directory. *)
Definition tree (m : gmap Path Node) : Prop :=
  ∀ x parent n, m !! (x :: parent) = Some n → ∃ d, m !! parent = Some (Dir d).

Definition is_dir (m : gmap Path Node) (p : Path) : bool :=
  match m !! p with Some (Dir _) => true | _ => false end.

(** The executable form of [tree]. *)
Definition is_tree (m : gmap Path Node) : bool :=
  forallb (λ e, match e.1 with
                | [] => true
                | _ :: parent => is_dir m parent
                end) (map_to_list m).

(** A directory can be created at [p], ancestors included: the nearest
    entry on the way up from [p] is a directory that can be written. *)
Fixpoint creatable (m : gmap Path Node) (p : Path) : bool :=
  match m !! p with
  | Some (Dir d) => d
  | Some (File _ _) => false
  | None =>
      match p with
      | [] => false
      | _ :: parent => creatable m parent
      end
  end.

(** Nothing in the file system stands in the way of
    [makedirs(name, exist_ok=True)]: [name] is a directory, or it is
    free and can be created. *)
Definition ready (m : gmap Path Node) (name : Path) : bool :=
  match m !! name with
  | Some (Dir _) => true
  | Some (File _ _) => false
  | None => creatable m name
  end.

(** The file system after the directories on the way to [name] that are
    missing have been added, from the nearest existing entry down. *)
Fixpoint with_dirs (m : gmap Path Node) (name : Path) : gmap Path Node :=
  match name with
  | [] => m
  | _ :: head =>
      match m !! name with
      | Some _ => m
      | None => <[name := Dir true]> (with_dirs m head)
      end
  end.

(** What every file system operation of the script respects, whether it
    returns or raises: standard output is left alone, a tree stays a
    tree, and no entry is removed or replaced by a directory
    operation. *)
Definition grows (w w' : World) : Prop :=
  stdout w' = stdout w ∧
  (tree (fs w) → tree (fs w')) ∧
  (∀ q n, fs w !! q = Some n → fs w' !! q = Some n).

End Os.

(** ** The script *)

Module Script.

Import Openpyxl Os.

(** [DefinedName(n, text)]: two positional arguments bind the first two
    parameters of [DefinedName.__init__]; the others keep their default
    [None]. *)
Definition DefinedName_call2 (n text : string) : DefinedName :=
  DefinedName_init n (Some text) None None None None None None None None
                   None None None None None None.

(** The check mark U+2713 that opens the first line of the summary, in
    UTF-8. *)
Definition check_mark : string :=
  String (ascii_of_nat 226) (String (ascii_of_nat 156)
    (String (ascii_of_nat 147) EmptyString)).

(** Lines 12-50: the workbook is built in memory. *)
Definition build : Res Workbook :=
  (* Create workbook *)
  let wb := Workbook_init in
  let sheet := active wb in
  wb ← set_sheet_title sheet "Sheet1" wb;
  (* Header row *)
  wb ← on_sheet sheet (setitem "A1" "Customer Name") wb;
  wb ← on_sheet sheet (setitem "B1" "Date") wb;
  wb ← on_sheet sheet (setitem_font "A1" (Font_bold true)) wb;
  wb ← on_sheet sheet (setitem_font "B1" (Font_bold true)) wb;
  (* FreeMarker placeholder in row 2 (data row) *)
  wb ← on_sheet sheet (setitem "A2" "${customerName}") wb;
  wb ← on_sheet sheet (setitem "B2" "${orderDate}") wb;
  (* Table header for items (row 4) *)
  wb ← on_sheet sheet (setitem "A4" "Item") wb;
  wb ← on_sheet sheet (setitem "B4" "Qty") wb;
  wb ← on_sheet sheet (setitem "C4" "Price") wb;
  wb ← for_each ["A"; "B"; "C"] (λ col wb,
         wb ← on_sheet sheet (setitem_font (col +:+ "4") (Font_bold true)) wb;
         f ← PatternFill_init "CCCCCC" "CCCCCC" "solid";
         on_sheet sheet (setitem_fill (col +:+ "4") f) wb) wb;
  (* Create named ranges using DefinedName objects *)
  (* Single cell: customerName -> A2 *)
  wb ← set_defined_name "customerName"
         (DefinedName_call2 "customerName" "$'Sheet1'!$A$2") wb;
  (* Single cell: orderDate -> B2 *)
  wb ← set_defined_name "orderDate"
         (DefinedName_call2 "orderDate" "$'Sheet1'!$B$2") wb;
  (* Table area: items -> A5:C10 (rows for data) *)
  wb ← set_defined_name "items"
         (DefinedName_call2 "items" "$'Sheet1'!$A$5:$C$10") wb;
  (* Adjust column widths *)
  wb ← on_sheet sheet (λ ws, mret (set_column_width "A" 15 ws)) wb;
  wb ← on_sheet sheet (λ ws, mret (set_column_width "B" 15 ws)) wb;
  on_sheet sheet (λ ws, mret (set_column_width "C" 12 ws)) wb.

Definition output_dir : string := "config-repo/common-templates/templates".

Definition output_path : string := path_join output_dir "example.xlsx".

(** Lines 60-67: the summary. *)
Definition summary : list string :=
  [ check_mark +:+ " Created: " +:+ output_path;
    "  - Named range 'customerName' -> A2 (FreeMarker: ${customerName})";
    "  - Named range 'orderDate' -> B2 (FreeMarker: ${orderDate})";
    "  - Named range 'items' -> A5:C10 (table area)";
    EmptyString;
    "Next: call the API endpoints:";
    "  1. POST /api/documents/fill-excel";
    "  2. POST /api/documents/verify-excel" ].

(** The module body: what [python3 create_example_excel.py] runs. *)
Definition create_example_excel : M unit :=
  wb ← lift build;
  (* Create output directory if needed *)
  _ ← makedirs (path_of output_dir) true;
  (* Save the workbook *)
  _ ← save wb output_path;
  _ ← print (check_mark +:+ " Created: " +:+ output_path);
  _ ← print "  - Named range 'customerName' -> A2 (FreeMarker: ${customerName})";
  _ ← print "  - Named range 'orderDate' -> B2 (FreeMarker: ${orderDate})";
  _ ← print "  - Named range 'items' -> A5:C10 (table area)";
  _ ← print EmptyString;
  _ ← print "Next: call the API endpoints:";
  _ ← print "  1. POST /api/documents/fill-excel";
  print "  2. POST /api/documents/verify-excel".

(** A run of the script in a world whose standard output is still
    empty. *)
Definition run (files : gmap Path Node) : Res unit * World :=
  create_example_excel {| fs := files; stdout := [] |}.

(** The workbook that [build] is shown to return ([build_template]
    below), written out. *)

Definition light_gray : PatternFill :=
  {| patternType := Some "solid"; fgColor := ColorRGB "00CCCCCC";
     bgColor := ColorRGB "00CCCCCC" |}.

Definition text_cell (v : string) (f : Font) (p : PatternFill) : Cell :=
  {| value := Some v; data_type := TYPE_STRING; font := f; fill := p |}.

Definition template_cells : gmap (nat * nat) Cell :=
  list_to_map
    [ ((1, 1), text_cell "Customer Name" (Font_bold true) DEFAULT_EMPTY_FILL);
      ((1, 2), text_cell "Date" (Font_bold true) DEFAULT_EMPTY_FILL);
      ((2, 1), text_cell "${customerName}" DEFAULT_FONT DEFAULT_EMPTY_FILL);
      ((2, 2), text_cell "${orderDate}" DEFAULT_FONT DEFAULT_EMPTY_FILL);
      ((4, 1), text_cell "Item" (Font_bold true) light_gray);
      ((4, 2), text_cell "Qty" (Font_bold true) light_gray);
      ((4, 3), text_cell "Price" (Font_bold true) light_gray) ].

Definition template_widths : gmap string ColumnDimension :=
  list_to_map
    [ ("A", set_width 15 (ColumnDimension_init "A"));
      ("B", set_width 15 (ColumnDimension_init "B"));
      ("C", set_width 12 (ColumnDimension_init "C")) ].

Definition template_sheet : Worksheet :=
  {| title := "Sheet1"; _cells := template_cells;
     column_dimensions := template_widths |}.

Definition template_names : gmap string DefinedName :=
  list_to_map
    [ ("customerName", DefinedName_call2 "customerName" "$'Sheet1'!$A$2");
      ("orderDate", DefinedName_call2 "orderDate" "$'Sheet1'!$B$2");
      ("items", DefinedName_call2 "items" "$'Sheet1'!$A$5:$C$10") ].

Definition template : Workbook :=
  {| _sheets := [template_sheet]; _active_sheet_index := 0;
     defined_names := template_names |}.

(** A run succeeds when the module body returns without raising. *)
Definition succeeds (files : gmap Path Node) : Prop :=
  (run files).1 = inr tt.

(** The workbook found in the output file after a run. *)
Definition saved (files : gmap Path Node) (wb : Workbook) : Prop :=
  ∃ fw, fs (run files).2 !! path_of output_path = Some (File fw (Xlsx wb)).

(** A working directory that is empty and can be written to. *)
Definition fresh : gmap Path Node := {[ [] := Dir true ]}.

(** A working directory that already holds the output directory and an
    older file at the output path. *)
Definition with_old_file : gmap Path Node :=
  list_to_map
    [ ([], Dir true);
      (["config-repo"], Dir true);
      (["common-templates"; "config-repo"], Dir true);
      (path_of output_dir, Dir true);
      (path_of output_path, File true (Bytes "old")) ].

(** A working directory in which [config-repo] is a regular file. *)
Definition blocked : gmap Path Node :=
  list_to_map [ ([], Dir true); (["config-repo"], File true (Bytes "x")) ].

(** The names the script registers, each with the text it passes as the
    second argument of [DefinedName]. *)
Definition registrations : list (string * string) :=
  [ ("customerName", "$'Sheet1'!$A$2");
    ("orderDate", "$'Sheet1'!$B$2");
    ("items", "$'Sheet1'!$A$5:$C$10") ].

(** [DefinedName(n, attr_text=text)]: the reference given by keyword. *)
Definition DefinedName_attr_text (n text : string) : DefinedName :=
  DefinedName_init n None None None None None None None None None
                   None None None None None (Some text).

(** The absolute corner [$col$row]. *)
Definition abs_anchor (c r : nat) : Anchor :=
  {| col_abs := true; col := c; row_abs := true; row := r |}.

End Script.

(** ** The statements of the script taken apart

    The cell statements and the loop of the script as functions of the
    workbook they find, and what the file system must offer for the
    save. *)

Module Steps.

Import Openpyxl Os Script.

(** The workbook with the sheet at position [i] replaced. *)
Definition set_sheet (i : nat) (ws : Worksheet) (wb : Workbook) : Workbook :=
  {| _sheets := <[i := ws]> (_sheets wb);
     _active_sheet_index := _active_sheet_index wb;
     defined_names := defined_names wb |}.

(** The sheet with the cell at [rc] replaced. *)
Definition set_cell (rc : nat * nat) (c : Cell) (ws : Worksheet) : Worksheet :=
  {| title := title ws; _cells := <[rc := c]> (_cells ws);
     column_dimensions := column_dimensions ws |}.

(** A cell after a plain text was assigned to its value. *)
Definition put_text (v : string) (c : Cell) : Cell :=
  {| value := Some v; data_type := TYPE_STRING; font := font c;
     fill := fill c |}.

(** What [sheet[key]] hands out: the cell the sheet holds there, or a
    new one. *)
Definition found (ws : Worksheet) (key : string) : Cell :=
  default Cell_init (cell ws key).

(** A text that [cell.value = v] stores as it is, as a string: short
    enough, no illegal character, no formula and no error code. *)
Definition plain_text (v : string) : bool :=
  (String.length v <=? N.to_nat 32767)
  && negb (string_exists is_illegal v)
  && negb ((1 <? String.length v) && starts_with_eq v)
  && negb (bool_decide (v ∈ ERROR_CODES)).

(** A cell after the two assignments of the loop body. *)
Definition header_style (c : Cell) : Cell :=
  set_fill light_gray (set_font (Font_bold true) c).

(** Lines 31-33, for any list of column letters. *)
Definition style_columns (sheet : option SheetRef) (cols : list string)
    (wb : Workbook) : Res Workbook :=
  for_each cols (λ col wb,
    wb ← on_sheet sheet (setitem_font (col +:+ "4") (Font_bold true)) wb;
    f ← PatternFill_init "CCCCCC" "CCCCCC" "solid";
    on_sheet sheet (setitem_fill (col +:+ "4") f) wb) wb.

(** Lines 17-33: the cell statements, on the workbook they find. *)
Definition write_cells (sheet : option SheetRef) (wb : Workbook)
  : Res Workbook :=
  wb ← on_sheet sheet (setitem "A1" "Customer Name") wb;
  wb ← on_sheet sheet (setitem "B1" "Date") wb;
  wb ← on_sheet sheet (setitem_font "A1" (Font_bold true)) wb;
  wb ← on_sheet sheet (setitem_font "B1" (Font_bold true)) wb;
  wb ← on_sheet sheet (setitem "A2" "${customerName}") wb;
  wb ← on_sheet sheet (setitem "B2" "${orderDate}") wb;
  wb ← on_sheet sheet (setitem "A4" "Item") wb;
  wb ← on_sheet sheet (setitem "B4" "Qty") wb;
  wb ← on_sheet sheet (setitem "C4" "Price") wb;
  style_columns sheet ["A"; "B"; "C"] wb.

(** Lines 35-50: the defined names and the column widths. *)
Definition names_and_widths (sheet : option SheetRef) (wb : Workbook)
  : Res Workbook :=
  wb ← set_defined_name "customerName"
         (DefinedName_call2 "customerName" "$'Sheet1'!$A$2") wb;
  wb ← set_defined_name "orderDate"
         (DefinedName_call2 "orderDate" "$'Sheet1'!$B$2") wb;
  wb ← set_defined_name "items"
         (DefinedName_call2 "items" "$'Sheet1'!$A$5:$C$10") wb;
  wb ← on_sheet sheet (λ ws, mret (set_column_width "A" 15 ws)) wb;
  wb ← on_sheet sheet (λ ws, mret (set_column_width "B" 15 ws)) wb;
  on_sheet sheet (λ ws, mret (set_column_width "C" 12 ws)) wb.

(** One to three letters: a column name. *)
Definition is_column_name (col : string) : bool :=
  string_forall is_alpha col
  && (1 <=? String.length col) && (String.length col <=? 3).

(** The cells of row 4 in the given columns. *)
Definition row4 (cols : list string) : list (nat * nat) :=
  (λ col, (4, column_index_from_string col)) <$> cols.

(** The paths a run may touch. *)
Definition touched : list Path :=
  [ path_of "config-repo";
    path_of "config-repo/common-templates";
    path_of "config-repo/common-templates/templates";
    path_of "config-repo/common-templates/templates/example.xlsx" ].

(** The output file can be written once the output directory is there:
    the path holds a file that can be written, or it is free and the
    directory can be written (a directory the run creates can). *)
Definition can_save (m : gmap Path Node) : bool :=
  match m !! path_of output_path with
  | Some (Dir _) => false
  | Some (File fw _) => fw
  | None =>
      match m !! path_of output_dir with
      | Some (Dir d) => d
      | _ => true
      end
  end.

(** A working directory in which the place of the output directory is
    taken by a regular file. *)
Definition dir_is_file : gmap Path Node :=
  list_to_map
    [ ([], Dir true);
      (["config-repo"], Dir true);
      (["common-templates"; "config-repo"], Dir true);
      (path_of output_dir, File true (Bytes "x")) ].

End Steps.

(** ** What the script builds *)

Import Openpyxl Os Script.

Lemma build_template : build = inr template.
Proof. vm_compute. reflexivity. Qed.

(** From here on [build] is used through [build_template] only. *)
#[global] Opaque build.

Lemma output_dir_path :
  path_of output_dir = ["templates"; "common-templates"; "config-repo"].
Proof. vm_compute. reflexivity. Qed.

Lemma output_path_eq :
  output_path = "config-repo/common-templates/templates/example.xlsx".
Proof. vm_compute. reflexivity. Qed.

Lemma output_path_path :
  path_of output_path = "example.xlsx" :: path_of output_dir.
Proof. vm_compute. reflexivity. Qed.

(** ** Facts about the file system operations *)

Section os_facts.

Implicit Types (w : World) (m : gmap Path Node) (p q name : Path).

Lemma is_tree_sound m : is_tree m = true → tree m.
Proof.
  unfold is_tree. rewrite forallb_forall.
  intros Hall x parent n Hx.
  assert (Hin : In (x :: parent, n) (map_to_list m))
    by (by apply list_elem_of_In, elem_of_map_to_list).
  apply Hall in Hin. simpl in Hin. unfold is_dir in Hin.
  destruct (m !! parent) as [[d|fw c]|]; [by exists d | done | done].
Qed.

Lemma cons_ne {A} (x : A) (l : list A) : x :: l ≠ l.
Proof. intros H. apply (f_equal List.length) in H. simpl in H. lia. Qed.

Lemma tree_insert_dir m x parent d d' :
  tree m → m !! parent = Some (Dir d) →
  tree (<[x :: parent := Dir d']> m).
Proof.
  intros Ht Hp y q n. rewrite lookup_insert. case_decide as Heq.
  - injection Heq as -> ->. intros _. exists d.
    rewrite lookup_insert_ne; [done | apply cons_ne].
  - intros Hy. destruct (Ht _ _ _ Hy) as [dq Hq].
    rewrite lookup_insert. case_decide; eauto.
Qed.

Lemma tree_insert_file m x parent d fw c :
  tree m → m !! parent = Some (Dir d) →
  (∀ dd, m !! (x :: parent) ≠ Some (Dir dd)) →
  tree (<[x :: parent := File fw c]> m).
Proof.
  intros Ht Hp Hnd y q n. rewrite lookup_insert. case_decide as Heq.
  - injection Heq as -> ->. intros _. exists d.
    rewrite lookup_insert_ne; [done | apply cons_ne].
  - intros Hy. destruct (Ht _ _ _ Hy) as [dq Hq].
    rewrite lookup_insert. case_decide as Hq'; [|eauto].
    subst q. by destruct (Hnd dq).
Qed.

(** [mkdir] either adds one writable directory or changes nothing. *)
Lemma mkdir_cases p w :
  (∃ x parent, p = x :: parent ∧ fs w !! parent = Some (Dir true) ∧
     fs w !! p = None ∧
     mkdir p w = (inr tt, set_fs (<[p := Dir true]> (fs w)) w)) ∨
  (∃ e, mkdir p w = (inl e, w) ∧ is_OSError e = true ∧
     (e = FileExistsError → is_Some (fs w !! p))).
Proof.
  destruct p as [|x parent]; simpl.
  { right. exists FileNotFoundError. by repeat split. }
  destruct (fs w !! parent) as [[[]|fw c]|] eqn:Hp;
    destruct (fs w !! (x :: parent)) as [n|] eqn:Hx;
    try (right; eexists; split; [reflexivity | split; [done | by eauto]]).
  left. by exists x, parent.
Qed.

Lemma set_fs_id w : set_fs (fs w) w = w.
Proof. by destruct w. Qed.

Lemma set_fs_set_fs m m' w : set_fs m (set_fs m' w) = set_fs m w.
Proof. done. Qed.

Lemma makedirs_cons x head ok w :
  makedirs (x :: head) ok w =
  match (match head with
         | [] => (inr tt, w)
         | _ :: _ =>
             if bool_decide (is_Some (fs w !! head)) then (inr tt, w)
             else try_except (makedirs head ok) is_FileExistsError
                             (λ _, mret tt) w
         end) with
  | (inl e, w1) => (inl e, w1)
  | (inr _, w1) => mkdir_exist_ok (x :: head) ok w1
  end.
Proof.
  destruct head as [|y hh]; [reflexivity|].
  cbn [makedirs]. unfold mbind, M_bind, path_exists at 1.
  by destruct (bool_decide _).
Qed.

Lemma mkdir_exist_ok_present name d w :
  fs w !! name = Some (Dir d) → mkdir_exist_ok name true w = (inr tt, w).
Proof.
  intros Hd. unfold mkdir_exist_ok, try_except.
  destruct (mkdir_cases name w) as [(x & parent & _ & _ & Hn & _)|(e & -> & -> & _)].
  - congruence.
  - unfold mbind, M_bind, path_isdir. by rewrite Hd.
Qed.

Lemma mkdir_exist_ok_create x parent ok w :
  fs w !! parent = Some (Dir true) → fs w !! (x :: parent) = None →
  mkdir_exist_ok (x :: parent) ok w
  = (inr tt, set_fs (<[x :: parent := Dir true]> (fs w)) w).
Proof.
  intros Hp Hn. unfold mkdir_exist_ok, try_except. simpl. by rewrite Hp, Hn.
Qed.

(** An existing directory: nothing happens and nothing is raised. *)
Lemma makedirs_present name d w :
  tree (fs w) → fs w !! name = Some (Dir d) → name ≠ [] →
  makedirs name true w = (inr tt, w).
Proof.
  intros Ht Hd Hne. destruct name as [|x head]; [done|].
  rewrite makedirs_cons. destruct head as [|y hh].
  - by apply mkdir_exist_ok_present with d.
  - destruct (Ht _ _ _ Hd) as [d' Hh].
    rewrite bool_decide_eq_true_2 by (by rewrite Hh).
    by apply mkdir_exist_ok_present with d.
Qed.

Lemma with_dirs_keeps m name q n :
  m !! q = Some n → with_dirs m name !! q = Some n.
Proof.
  intros Hq. induction name as [|x head IH]; [done|]. simpl.
  destruct (m !! (x :: head)) eqn:Hx; [done|].
  rewrite lookup_insert_ne; [done | congruence].
Qed.

Lemma with_dirs_other m name q :
  q = [] ∨ ¬ q `suffix_of` name → with_dirs m name !! q = m !! q.
Proof.
  induction name as [|x head IH]; [done|]. intros Hq. simpl.
  destruct (m !! (x :: head)) eqn:Hx; [done|].
  rewrite lookup_insert_ne.
  - apply IH. destruct Hq as [->|Hq]; [by left | right].
    intros Hs. apply Hq. by apply suffix_cons_r.
  - intros <-. destruct Hq as [Hq|Hq]; [done | by apply Hq].
Qed.

Lemma with_dirs_self m x head :
  m !! (x :: head) = None → with_dirs m (x :: head) !! (x :: head) = Some (Dir true).
Proof. intros Hx. simpl. rewrite Hx. apply lookup_insert_eq. Qed.

Lemma not_suffix_cons {A} (x : A) (l : list A) : ¬ (x :: l) `suffix_of` l.
Proof. intros Hs. apply suffix_length in Hs. simpl in Hs. lia. Qed.

(** A free path whose nearest existing ancestor is a directory that can
    be written: the missing directories are created, nothing else. *)
Lemma makedirs_absent name ok w :
  fs w !! name = None → creatable (fs w) name = true →
  makedirs name ok w = (inr tt, set_fs (with_dirs (fs w) name) w).
Proof.
  revert w. induction name as [|x head IH]; intros w Hn Hc.
  { simpl in Hc. by rewrite Hn in Hc. }
  simpl in Hc. rewrite Hn in Hc. rewrite makedirs_cons.
  destruct head as [|y hh].
  - simpl in Hc. destruct (fs w !! []) as [[[]|]|] eqn:H0; try done.
    rewrite mkdir_exist_ok_create by done. simpl. by rewrite Hn.
  - destruct (fs w !! (y :: hh)) as [nh|] eqn:Hh.
    + rewrite bool_decide_eq_true_2 by eauto.
      assert (nh = Dir true) as ->.
      { simpl in Hc. rewrite Hh in Hc. by destruct nh as [[]|]. }
      rewrite mkdir_exist_ok_create by done.
      cbn [with_dirs]. by rewrite Hn, Hh.
    + rewrite bool_decide_eq_false_2 by (by intros [? ?]).
      unfold try_except at 1. rewrite (IH w Hh Hc).
      rewrite mkdir_exist_ok_create.
      * cbn [with_dirs]. by rewrite Hn, Hh.
      * cbn [fs set_fs]. by apply with_dirs_self.
      * cbn [fs set_fs]. rewrite with_dirs_other; [done|].
        right. apply not_suffix_cons.
Qed.

Lemma ready_of_dir m name : is_dir m name = true → ready m name = true.
Proof.
  unfold is_dir, ready. by destruct (m !! name) as [[d|fw c]|].
Qed.

Lemma makedirs_ready name w :
  tree (fs w) → ready (fs w) name = true → name ≠ [] →
  makedirs name true w = (inr tt, set_fs (with_dirs (fs w) name) w).
Proof.
  intros Ht Hr Hne. unfold ready in Hr.
  destruct (fs w !! name) as [[d|fw c]|] eqn:Hn; [|done|].
  - rewrite (makedirs_present name d) by done.
    destruct name as [|x head]; [done|]. simpl. by rewrite Hn, set_fs_id.
  - by apply makedirs_absent.
Qed.

Lemma grows_refl w : grows w w.
Proof. by repeat split. Qed.

Lemma grows_trans w1 w2 w3 : grows w1 w2 → grows w2 w3 → grows w1 w3.
Proof.
  intros (Ho1 & Ht1 & Hk1) (Ho2 & Ht2 & Hk2). repeat split.
  - congruence.
  - auto.
  - auto.
Qed.

Lemma grows_insert_dir x parent w :
  fs w !! parent = Some (Dir true) → fs w !! (x :: parent) = None →
  grows w (set_fs (<[x :: parent := Dir true]> (fs w)) w).
Proof.
  intros Hp Hn. repeat split.
  - intros Ht. by apply tree_insert_dir with true.
  - intros q n Hq. cbn [fs set_fs].
    rewrite lookup_insert_ne; [done | congruence].
Qed.

(** The three outcomes of [mkdir] under [exist_ok=True]. *)
Lemma mkdir_exist_ok_cases name w :
  (∃ x parent, name = x :: parent ∧ fs w !! parent = Some (Dir true) ∧
     fs w !! name = None ∧
     mkdir_exist_ok name true w
     = (inr tt, set_fs (<[name := Dir true]> (fs w)) w)) ∨
  (∃ d, fs w !! name = Some (Dir d) ∧
     mkdir_exist_ok name true w = (inr tt, w)) ∨
  (∃ e, mkdir_exist_ok name true w = (inl e, w)).
Proof.
  destruct (mkdir_cases name w)
    as [(x & parent & -> & Hp & Hn & Hm)|(e & Hm & He & _)].
  - left. exists x, parent. repeat split; try done.
    by apply mkdir_exist_ok_create.
  - right. unfold mkdir_exist_ok, try_except. rewrite Hm, He.
    unfold mbind, M_bind, path_isdir.
    destruct (fs w !! name) as [[d|fw c]|] eqn:Hn.
    + left. by exists d.
    + right. by exists e.
    + right. by exists e.
Qed.

Lemma mkdir_exist_ok_grows name w : grows w (mkdir_exist_ok name true w).2.
Proof.
  destruct (mkdir_exist_ok_cases name w)
    as [(x & parent & Hx & Hp & Hn & Hk)|[(d & _ & Hk)|(e & Hk)]];
    rewrite Hk; cbn [snd]; [|apply grows_refl..].
  subst name. by apply grows_insert_dir.
Qed.

Lemma makedirs_grows name w : grows w (makedirs name true w).2.
Proof.
  revert w. induction name as [|x head IH]; intros w.
  { apply grows_refl. }
  rewrite makedirs_cons.
  assert (∀ r, (r = (inr tt, w) ∨
                r = try_except (makedirs head true) is_FileExistsError
                               (λ _, mret tt) w) →
          grows w (match r with
                   | (inl e, w1) => (inl e, w1)
                   | (inr _, w1) => mkdir_exist_ok (x :: head) true w1
                   end).2) as Hstep.
  { intros r [-> | ->].
    - apply mkdir_exist_ok_grows.
    - unfold try_except. specialize (IH w).
      destruct (makedirs head true w) as [[e|[]] w1]; cbn [snd] in IH.
      + destruct (is_FileExistsError e); cbn [snd]; [|done].
        unfold mret, M_ret.
        eapply grows_trans; [done | apply mkdir_exist_ok_grows].
      + eapply grows_trans; [done | apply mkdir_exist_ok_grows]. }
  destruct head as [|y hh]; [apply (Hstep (inr tt, w)); by left|].
  destruct (bool_decide _);
    [apply (Hstep (inr tt, w)); by left | apply (Hstep _ (or_intror eq_refl))].
Qed.

(** When [makedirs] returns, the path is a directory. *)
Lemma makedirs_ok_dir name w w' :
  makedirs name true w = (inr tt, w') → name ≠ [] →
  ∃ d, fs w' !! name = Some (Dir d).
Proof.
  intros Hm Hne. destruct name as [|x head]; [done|].
  rewrite makedirs_cons in Hm.
  set (r := match head with [] => _ | _ => _ end) in Hm.
  destruct r as [[e|[]] w1]; [done|].
  destruct (mkdir_exist_ok_cases (x :: head) w1)
    as [(? & ? & _ & _ & _ & Hk)|[(d & Hd & Hk)|(e & Hk)]];
    rewrite Hk in Hm; simplify_eq.
  - exists true. cbn [fs set_fs]. apply lookup_insert_eq.
  - by exists d.
Qed.

(** [write_file] replaces or creates one writable file, or changes
    nothing. *)
Lemma write_file_cases p c w :
  (∃ x parent d, p = x :: parent ∧ fs w !! parent = Some (Dir d) ∧
     (∀ dd, fs w !! p ≠ Some (Dir dd)) ∧
     write_file p c w = (inr tt, set_fs (<[p := File true c]> (fs w)) w)) ∨
  (∃ e, write_file p c w = (inl e, w)).
Proof.
  destruct p as [|x parent]; simpl; [right; by eexists|].
  destruct (fs w !! parent) as [[d|fw' c']|] eqn:Hp; [| right; by eexists..].
  destruct (fs w !! (x :: parent)) as [[dd|[] old]|] eqn:Hx;
    try (right; by eexists).
  - left. by exists x, parent, d.
  - destruct d; [|right; by eexists].
    left. by exists x, parent, true.
Qed.

Lemma write_file_overwrite x parent d old c w :
  fs w !! parent = Some (Dir d) →
  fs w !! (x :: parent) = Some (File true old) →
  write_file (x :: parent) c w
  = (inr tt, set_fs (<[x :: parent := File true c]> (fs w)) w).
Proof. intros Hp Hx. simpl. by rewrite Hp, Hx. Qed.

Lemma suffix_cons_cases {A} (q : list A) x l :
  q `suffix_of` x :: l → q = x :: l ∨ q `suffix_of` l.
Proof.
  intros [k Hk]. destruct k as [|y k]; simpl in Hk.
  - by left.
  - right. exists k. by injection Hk.
Qed.

(** In a tree, everything above an entry is a directory. *)
Lemma tree_above m name q n :
  tree m → m !! name = Some n → q `suffix_of` name → q ≠ name →
  ∃ d, m !! q = Some (Dir d).
Proof.
  intros Ht. revert n. induction name as [|x head IH]; intros n Hn Hs Hne.
  { apply suffix_nil_inv in Hs. congruence. }
  destruct (Ht _ _ _ Hn) as [d Hd].
  apply suffix_cons_cases in Hs as [->|Hs]; [done|].
  destruct (decide (q = head)) as [->|Hqh]; [by exists d|].
  by apply (IH (Dir d)).
Qed.

Lemma ready_head m x head :
  m !! (x :: head) = None → ready m (x :: head) = true → ready m head = true.
Proof.
  unfold ready. intros Hn. rewrite Hn. simpl. rewrite Hn.
  destruct head as [|y hh]; simpl.
  - by destruct (m !! []) as [[d|fw c]|].
  - by destruct (m !! (y :: hh)) as [[d|fw c]|].
Qed.

(** After [makedirs] every directory on the way to [name] is there. *)
Lemma with_dirs_dir m name q :
  tree m → ready m name = true → q `suffix_of` name → q ≠ [] →
  is_dir (with_dirs m name) q = true.
Proof.
  intros Ht. induction name as [|x head IH]; intros Hr Hs Hne.
  { by apply suffix_nil_inv in Hs. }
  simpl. destruct (m !! (x :: head)) as [n|] eqn:Hn.
  - assert (∃ d, n = Dir d) as [d ->].
    { unfold ready in Hr. rewrite Hn in Hr. destruct n; [eauto | done]. }
    destruct (decide (q = x :: head)) as [->|Hq].
    + unfold is_dir. by rewrite Hn.
    + destruct (tree_above m (x :: head) q (Dir d)) as [d' Hd']; try done.
      unfold is_dir. by rewrite Hd'.
  - apply suffix_cons_cases in Hs as [->|Hs].
    + unfold is_dir. by rewrite lookup_insert_eq.
    + unfold is_dir. rewrite lookup_insert_ne.
      * apply IH; [by apply ready_head with x | done | done].
      * intros <-. by apply not_suffix_cons in Hs.
Qed.

End os_facts.

(** ** Facts about a run of the script *)

Section run_facts.

Implicit Types (files : gmap Path Node).

(** The module body, reduced to its two steps that can raise. *)
Lemma run_eq files :
  run files =
  match makedirs (path_of output_dir) true {| fs := files; stdout := [] |} with
  | (inl e, w1) => (inl e, w1)
  | (inr _, w1) =>
      match save template output_path w1 with
      | (inl e, w2) => (inl e, w2)
      | (inr _, w2) =>
          (inr tt, {| fs := fs w2; stdout := stdout w2 ++ summary |})
      end
  end.
Proof.
  unfold run, create_example_excel. rewrite build_template.
  unfold mbind, M_bind, lift.
  destruct (makedirs _ _ _) as [[e|[]] w1]; [done|].
  destruct (save _ _ _) as [[e|[]] w2]; [done|].
  unfold print. cbn [fs stdout]. f_equal. f_equal.
  by rewrite <- !app_assoc.
Qed.

(** Every run ends in one of two ways. *)
Lemma run_outcome files :
  (∃ w1,
     makedirs (path_of output_dir) true {| fs := files; stdout := [] |}
     = (inr tt, w1) ∧
     (∀ dd, fs w1 !! path_of output_path ≠ Some (Dir dd)) ∧
     run files
     = (inr tt,
        {| fs := <[path_of output_path := File true (Xlsx template)]> (fs w1);
           stdout := summary |})) ∨
  (∃ e w', run files = (inl e, w') ∧ stdout w' = []).
Proof.
  rewrite run_eq.
  pose proof (makedirs_grows (path_of output_dir)
                {| fs := files; stdout := [] |}) as (Ho & _ & _).
  destruct (makedirs _ _ _) as [[e|[]] w1]; cbn [snd stdout] in Ho.
  { right. by exists e, w1. }
  unfold save.
  destruct (write_file_cases (path_of output_path) (Xlsx template) w1)
    as [(x & parent & d & _ & _ & Hnd & Hk)|(e & Hk)]; rewrite Hk.
  - left. exists w1. split; [done|]. split; [done|].
    cbn [fs stdout set_fs]. by rewrite Ho.
  - right. by exists e, w1.
Qed.

Lemma run_success files :
  succeeds files → saved files template ∧ stdout (run files).2 = summary.
Proof.
  unfold succeeds, saved.
  destruct (run_outcome files) as [(w1 & _ & _ & Hr)|(e & w' & Hr & _)];
    rewrite Hr; cbn [fst snd fs stdout]; [intros _ | done].
  split; [|done]. exists true. apply lookup_insert_eq.
Qed.

(** With the output directory in place and an older writable file at
    the output path, the run succeeds and replaces the file. *)
Lemma run_overwrites files d old :
  tree files →
  files !! path_of output_dir = Some (Dir d) →
  files !! path_of output_path = Some (File true old) →
  succeeds files ∧ saved files template.
Proof.
  intros Ht Hd Hf.
  assert (run files
          = (inr tt,
             {| fs := <[path_of output_path := File true (Xlsx template)]>
                        files;
                stdout := summary |})) as Hr.
  { rewrite run_eq.
    rewrite (makedirs_present (path_of output_dir) d);
      [| done | done | by rewrite output_dir_path].
    unfold save. rewrite output_path_path in *.
    by rewrite (write_file_overwrite _ _ d old). }
  unfold succeeds, saved. rewrite Hr. split; [reflexivity|].
  exists true. apply lookup_insert_eq.
Qed.

End run_facts.

(** ** The claims *)

(** C2. After a successful run the saved workbook has a sheet titled
    Sheet1 whose cells hold exactly these texts: A1 "Customer Name",
    B1 "Date", A2 "${customerName}", B2 "${orderDate}", A4 "Item",
    B4 "Qty", C4 "Price". *)
Theorem C2_cell_values files :
  succeeds files →
  ∃ wb ws, saved files wb ∧ getitem_sheet wb "Sheet1" = Some ws ∧
    value <$> cell ws "A1" = Some (Some "Customer Name") ∧
    value <$> cell ws "B1" = Some (Some "Date") ∧
    value <$> cell ws "A2" = Some (Some "${customerName}") ∧
    value <$> cell ws "B2" = Some (Some "${orderDate}") ∧
    value <$> cell ws "A4" = Some (Some "Item") ∧
    value <$> cell ws "B4" = Some (Some "Qty") ∧
    value <$> cell ws "C4" = Some (Some "Price").
Proof.
  intros [Hs _]%run_success. exists template, template_sheet.
  split; [done|]. vm_compute. by repeat split.
Qed.

Lemma C2_cell_values_witness :
  ∃ wb ws, saved fresh wb ∧ getitem_sheet wb "Sheet1" = Some ws ∧
    value <$> cell ws "A1" = Some (Some "Customer Name") ∧
    value <$> cell ws "B1" = Some (Some "Date") ∧
    value <$> cell ws "A2" = Some (Some "${customerName}") ∧
    value <$> cell ws "B2" = Some (Some "${orderDate}") ∧
    value <$> cell ws "A4" = Some (Some "Item") ∧
    value <$> cell ws "B4" = Some (Some "Qty") ∧
    value <$> cell ws "C4" = Some (Some "Price").
Proof. apply (C2_cell_values fresh). vm_compute. reflexivity. Defined.

(** C3. The builder gives A1 and B1 a bold font, and gives each of A4,
    B4 and C4 a bold font and a solid fill of the light gray CCCCCC. *)
Theorem C3_header_styles files :
  succeeds files →
  ∃ wb ws, saved files wb ∧ getitem_sheet wb "Sheet1" = Some ws ∧
    (∀ key, key ∈ ["A1"; "B1"; "A4"; "B4"; "C4"] →
       ∃ c, cell ws key = Some c ∧ font c = Font_bold true ∧
            font_b (font c) = true) ∧
    (∀ key, key ∈ ["A4"; "B4"; "C4"] →
       ∃ c, cell ws key = Some c ∧
            patternType (fill c) = Some "solid" ∧
            fgColor (fill c) = ColorRGB "00CCCCCC" ∧
            bgColor (fill c) = ColorRGB "00CCCCCC").
Proof.
  intros [Hs _]%run_success. exists template, template_sheet.
  split; [done|]. split; [done|]. split.
  - intros key Hkey. repeat (apply elem_of_cons in Hkey as [->|Hkey]);
      [eexists; split; [vm_compute; reflexivity | done].. |].
    by apply elem_of_nil in Hkey.
  - intros key Hkey. repeat (apply elem_of_cons in Hkey as [->|Hkey]);
      [eexists; split; [vm_compute; reflexivity | done].. |].
    by apply elem_of_nil in Hkey.
Qed.

Lemma C3_header_styles_witness :
  ∃ wb ws, saved fresh wb ∧ getitem_sheet wb "Sheet1" = Some ws ∧
    (∀ key, key ∈ ["A1"; "B1"; "A4"; "B4"; "C4"] →
       ∃ c, cell ws key = Some c ∧ font c = Font_bold true ∧
            font_b (font c) = true) ∧
    (∀ key, key ∈ ["A4"; "B4"; "C4"] →
       ∃ c, cell ws key = Some c ∧
            patternType (fill c) = Some "solid" ∧
            fgColor (fill c) = ColorRGB "00CCCCCC" ∧
            bgColor (fill c) = ColorRGB "00CCCCCC").
Proof. apply (C3_header_styles fresh). vm_compute. reflexivity. Defined.

(** C7. After a successful run the widths of columns A, B and C of
    Sheet1 are 15, 15 and 12. *)
Theorem C7_column_widths files :
  succeeds files →
  ∃ wb ws, saved files wb ∧ getitem_sheet wb "Sheet1" = Some ws ∧
    width <$> column_dimensions ws !! "A" = Some 15%Z ∧
    width <$> column_dimensions ws !! "B" = Some 15%Z ∧
    width <$> column_dimensions ws !! "C" = Some 12%Z.
Proof.
  intros [Hs _]%run_success. exists template, template_sheet.
  split; [done|]. vm_compute. by repeat split.
Qed.

Lemma C7_column_widths_witness :
  ∃ wb ws, saved fresh wb ∧ getitem_sheet wb "Sheet1" = Some ws ∧
    width <$> column_dimensions ws !! "A" = Some 15%Z ∧
    width <$> column_dimensions ws !! "B" = Some 15%Z ∧
    width <$> column_dimensions ws !! "C" = Some 12%Z.
Proof. apply (C7_column_widths fresh). vm_compute. reflexivity. Defined.

(** C9. After a successful run the output file is at the fixed path
    config-repo/common-templates/templates/example.xlsx, whatever was
    there before, and the workbook in it has exactly one sheet, titled
    Sheet1. *)
Theorem C9_output_file files :
  succeeds files →
  output_path = "config-repo/common-templates/templates/example.xlsx" ∧
  ∃ wb, saved files wb ∧ sheetnames wb = ["Sheet1"].
Proof.
  intros Hs. apply run_success in Hs as [Hs _].
  split; [apply output_path_eq|].
  exists template. split; [exact Hs | reflexivity].
Qed.

Lemma C9_output_file_witness :
  output_path = "config-repo/common-templates/templates/example.xlsx" ∧
  ∃ wb, saved with_old_file wb ∧ sheetnames wb = ["Sheet1"].
Proof. apply (C9_output_file with_old_file). vm_compute. reflexivity. Defined.

(** The older file of [with_old_file] is indeed at the output path. *)
Example with_old_file_prior :
  with_old_file !! path_of output_path = Some (File true (Bytes "old")).
Proof. vm_compute. reflexivity. Qed.

(** C5. Every run either completes, with the whole summary on standard
    output and the workbook saved, or ends with an exception and nothing
    on standard output. *)
Theorem C5_summary_only_after_save files :
  (succeeds files ∧ stdout (run files).2 = summary ∧ saved files template) ∨
  (∃ e, (run files).1 = inl e ∧ stdout (run files).2 = []).
Proof.
  destruct (run_outcome files) as [(w1 & _ & _ & Hr)|(e & w' & Hr & Ho)].
  - left.
    assert (succeeds files) as Hs
      by (unfold succeeds; rewrite Hr; reflexivity).
    destruct (run_success files Hs) as [Hsaved Hout].
    split; [exact Hs | split; [exact Hout | exact Hsaved]].
  - right. exists e. rewrite Hr. split; [reflexivity | exact Ho].
Qed.

(** Both outcomes occur. *)
Example run_fresh_succeeds : succeeds fresh.
Proof. vm_compute. reflexivity. Qed.

Example run_blocked_raises :
  (run blocked).1 = inl NotADirectoryError ∧ stdout (run blocked).2 = [].
Proof. vm_compute. split; reflexivity. Qed.

(** C10. The builder writes the seven cells A1, B1, A2, B2, A4, B4 and
    C4 of the only sheet and no other cell; of these only A1, B1, A4, B4
    and C4 carry a font or fill other than the default, A2 and B2 keep
    the default font and fill, and rows 5 to 10 hold no cell. *)
Theorem C10_only_these_cells files :
  succeeds files →
  ∃ wb ws, saved files wb ∧ _sheets wb = [ws] ∧
    (∀ rc, rc ∉ coordinates ["A1"; "B1"; "A2"; "B2"; "A4"; "B4"; "C4"] →
       _cells ws !! rc = None) ∧
    (∀ key, key ∈ ["A1"; "B1"; "A2"; "B2"; "A4"; "B4"; "C4"] →
       is_Some (cell ws key)) ∧
    (∀ rc c, _cells ws !! rc = Some c →
       (styled c ↔ rc ∈ coordinates ["A1"; "B1"; "A4"; "B4"; "C4"])) ∧
    (∀ key, key ∈ ["A2"; "B2"] →
       ∃ c, cell ws key = Some c ∧
            font c = DEFAULT_FONT ∧ fill c = DEFAULT_EMPTY_FILL) ∧
    (∀ r c, 5 ≤ r ≤ 10 → _cells ws !! (r, c) = None).
Proof.
  intros Hs. apply run_success in Hs as [Hs _].
  exists template, template_sheet. split; [exact Hs|]. clear Hs.
  split; [reflexivity|].
  assert (coordinates ["A1"; "B1"; "A2"; "B2"; "A4"; "B4"; "C4"]
          = [(1, 1); (1, 2); (2, 1); (2, 2); (4, 1); (4, 2); (4, 3)]) as E7
    by (vm_compute; reflexivity).
  assert (coordinates ["A1"; "B1"; "A4"; "B4"; "C4"]
          = [(1, 1); (1, 2); (4, 1); (4, 2); (4, 3)]) as E5
    by (vm_compute; reflexivity).
  rewrite E7, E5. cbn [_cells template_sheet].
  assert (∀ rc, rc ∉ [(1, 1); (1, 2); (2, 1); (2, 2); (4, 1); (4, 2); (4, 3)] →
                template_cells !! rc = None) as Hnone.
  { intros rc Hrc. unfold template_cells.
    by apply not_elem_of_list_to_map_1. }
  split; [exact Hnone|]. split; [|split; [|split]].
  - intros key Hkey. repeat (apply elem_of_cons in Hkey as [->|Hkey]);
      [vm_compute; eauto.. |].
    by apply elem_of_nil in Hkey.
  - intros rc c Hc. unfold template_cells in Hc.
    apply elem_of_list_to_map_2 in Hc.
    repeat (apply elem_of_cons in Hc as [Hc|Hc]);
      try (by apply elem_of_nil in Hc);
      apply pair_equal_spec in Hc as [-> ->]; (split; [intros Hst|intros Hin]);
      try (destruct Hst as [Hst | Hst]; by destruct Hst);
      try (rewrite !elem_of_cons; by auto 10);
      try (by left);
      repeat (apply elem_of_cons in Hin as [Hin|Hin]);
      try discriminate Hin; by apply elem_of_nil in Hin.
  - intros key Hkey. repeat (apply elem_of_cons in Hkey as [->|Hkey]);
      [eexists; split; [vm_compute; reflexivity | done].. |].
    by apply elem_of_nil in Hkey.
  - intros r c Hr. apply Hnone. intros Hin.
    repeat (apply elem_of_cons in Hin as [Hin|Hin]);
      try (by apply elem_of_nil in Hin); injection Hin; lia.
Qed.

Lemma C10_only_these_cells_witness :
  ∃ wb ws, saved fresh wb ∧ _sheets wb = [ws] ∧
    (∀ rc, rc ∉ coordinates ["A1"; "B1"; "A2"; "B2"; "A4"; "B4"; "C4"] →
       _cells ws !! rc = None) ∧
    (∀ key, key ∈ ["A1"; "B1"; "A2"; "B2"; "A4"; "B4"; "C4"] →
       is_Some (cell ws key)) ∧
    (∀ rc c, _cells ws !! rc = Some c →
       (styled c ↔ rc ∈ coordinates ["A1"; "B1"; "A4"; "B4"; "C4"])) ∧
    (∀ key, key ∈ ["A2"; "B2"] →
       ∃ c, cell ws key = Some c ∧
            font c = DEFAULT_FONT ∧ fill c = DEFAULT_EMPTY_FILL) ∧
    (∀ r c, 5 ≤ r ≤ 10 → _cells ws !! (r, c) = None).
Proof. apply (C10_only_these_cells fresh). vm_compute. reflexivity. Defined.

(** C6. In a file system that is a tree and in which nothing stands in
    the way ([ready]: the directory is there, or the path is free below
    a directory that can be written), the directory creation step
    returns, afterwards config-repo, config-repo/common-templates and
    config-repo/common-templates/templates are directories, no existing
    entry and no other path is touched, and when the directory was
    already there nothing changes at all. *)
Theorem C6_makedirs_output_dir w :
  is_tree (fs w) = true → ready (fs w) (path_of output_dir) = true →
  ∃ w', makedirs (path_of output_dir) true w = (inr tt, w') ∧
    stdout w' = stdout w ∧
    (∀ p, p ∈ [ path_of "config-repo";
                path_of "config-repo/common-templates";
                path_of "config-repo/common-templates/templates" ] →
       is_dir (fs w') p = true) ∧
    (∀ q n, fs w !! q = Some n → fs w' !! q = Some n) ∧
    (∀ q, q ∉ [ path_of "config-repo";
                path_of "config-repo/common-templates";
                path_of "config-repo/common-templates/templates" ] →
       fs w' !! q = fs w !! q) ∧
    (is_dir (fs w) (path_of output_dir) = true → w' = w).
Proof.
  intros Ht%is_tree_sound Hr.
  assert (path_of "config-repo" = ["config-repo"]) as E1
    by (vm_compute; reflexivity).
  assert (path_of "config-repo/common-templates"
          = ["common-templates"; "config-repo"]) as E2
    by (vm_compute; reflexivity).
  assert (path_of "config-repo/common-templates/templates"
          = ["templates"; "common-templates"; "config-repo"]) as E3
    by (vm_compute; reflexivity).
  rewrite E1, E2, E3. rewrite output_dir_path in *.
  eexists. split; [by apply makedirs_ready|]. cbn [fs stdout set_fs].
  split; [done|]. split; [|split; [|split]].
  - intros p Hp. apply with_dirs_dir; [done | done | | ].
    + repeat (apply elem_of_cons in Hp as [->|Hp]);
        [by exists ["templates"; "common-templates"]
        | by exists ["templates"] | by exists [] | by apply elem_of_nil in Hp].
    + intros ->. repeat (apply elem_of_cons in Hp as [Hp|Hp]); try done.
      by apply elem_of_nil in Hp.
  - intros q n. apply with_dirs_keeps.
  - intros q Hq. apply with_dirs_other.
    destruct q as [|x q]; [by left | right].
    intros Hs. apply Hq.
    repeat (apply suffix_cons_cases in Hs as [->|Hs];
            [rewrite !elem_of_cons; by auto 10|]).
    by apply suffix_nil_inv in Hs.
  - unfold is_dir. intros Hd. simpl.
    destruct (fs w !! ["templates"; "common-templates"; "config-repo"]);
      [apply set_fs_id | done].
Qed.

Lemma C6_makedirs_output_dir_witness :
  ∃ w', makedirs (path_of output_dir) true {| fs := fresh; stdout := [] |}
        = (inr tt, w') ∧
    stdout w' = [] ∧
    (∀ p, p ∈ [ path_of "config-repo";
                path_of "config-repo/common-templates";
                path_of "config-repo/common-templates/templates" ] →
       is_dir (fs w') p = true) ∧
    (∀ q n, fresh !! q = Some n → fs w' !! q = Some n) ∧
    (∀ q, q ∉ [ path_of "config-repo";
                path_of "config-repo/common-templates";
                path_of "config-repo/common-templates/templates" ] →
       fs w' !! q = fresh !! q) ∧
    (is_dir fresh (path_of output_dir) = true →
     w' = {| fs := fresh; stdout := [] |}).
Proof.
  apply (C6_makedirs_output_dir {| fs := fresh; stdout := [] |}).
  - vm_compute. reflexivity.
  - vm_compute. reflexivity.
Defined.

(** The step on a directory that is already there, and on a path that
    is blocked by a regular file. *)
Example makedirs_existing :
  makedirs (path_of output_dir) true {| fs := with_old_file; stdout := [] |}
  = (inr tt, {| fs := with_old_file; stdout := [] |}).
Proof. vm_compute. reflexivity. Qed.

Example makedirs_blocked :
  (makedirs (path_of output_dir) true {| fs := blocked; stdout := [] |}).1
  = inl NotADirectoryError.
Proof. vm_compute. reflexivity. Qed.

(** C8. Run in a tree-shaped file system, a second run right after a
    successful one succeeds as well and leaves the file system, the
    output file included, exactly as the first run left it; and any two
    successful runs, from whatever file systems, save the same workbook:
    cells, styles, defined names and widths. *)
Theorem C8_rerun_same_file files :
  is_tree files = true → succeeds files →
  succeeds (fs (run files).2) ∧
  fs (run (fs (run files).2)).2 = fs (run files).2 ∧
  (∀ files' wb wb',
     succeeds files' → saved files wb → saved files' wb' → wb = wb').
Proof.
  intros Ht%is_tree_sound Hs.
  assert (∀ files' wb wb',
            succeeds files' → saved files wb → saved files' wb' → wb = wb')
    as Hdet.
  { intros files' wb wb' Hs' [fw Hw] [fw' Hw'].
    apply run_success in Hs as [[f1 H1] _].
    apply run_success in Hs' as [[f2 H2] _].
    rewrite H1 in Hw. rewrite H2 in Hw'. congruence. }
  destruct (run_outcome files) as [(w1 & Hm & Hnd & Hr)|(e & w' & Hr & _)].
  2: { unfold succeeds in Hs. rewrite Hr in Hs. cbn [fst] in Hs.
       discriminate Hs. }
  clear Hs. rewrite Hr. cbn [snd fs].
  pose proof (makedirs_grows (path_of output_dir)
                {| fs := files; stdout := [] |}) as (_ & Ht1 & _).
  rewrite Hm in Ht1. cbn [snd fs] in Ht1. specialize (Ht1 Ht).
  destruct (makedirs_ok_dir _ _ _ Hm) as [d Hd];
    [by rewrite output_dir_path|].
  rewrite output_path_path, output_dir_path in *. clear Hr Hm.
  set (dir := ["templates"; "common-templates"; "config-repo"]) in *.
  set (m2 := <["example.xlsx" :: dir := File true (Xlsx template)]> (fs w1)).
  assert (m2 !! dir = Some (Dir d)) as Hd2.
  { unfold m2. rewrite lookup_insert_ne; [done | apply cons_ne]. }
  assert (tree m2) as Ht2 by (by apply tree_insert_file with d).
  assert (makedirs dir true {| fs := m2; stdout := [] |}
          = (inr tt, {| fs := m2; stdout := [] |})) as Hm2
    by (by apply makedirs_present with d).
  assert (write_file ("example.xlsx" :: dir) (Xlsx template)
            {| fs := m2; stdout := [] |}
          = (inr tt, {| fs := m2; stdout := [] |})) as Hw2.
  { rewrite (write_file_overwrite "example.xlsx" dir d (Xlsx template));
      cbn [fs]; [| done | apply lookup_insert_eq].
    unfold set_fs. cbn [fs stdout]. unfold m2. by rewrite insert_insert_eq. }
  assert (run m2 = (inr tt, {| fs := m2; stdout := summary |})) as Hr2.
  { rewrite run_eq. unfold save.
    rewrite output_path_path, output_dir_path. fold dir.
    rewrite Hm2, Hw2. reflexivity. }
  split; [|split; [|exact Hdet]].
  - unfold succeeds. rewrite Hr2. reflexivity.
  - rewrite Hr2. reflexivity.
Qed.

Lemma C8_rerun_same_file_witness :
  succeeds (fs (run fresh).2) ∧
  fs (run (fs (run fresh).2)).2 = fs (run fresh).2 ∧
  (∀ files' wb wb',
     succeeds files' → saved fresh wb → saved files' wb' → wb = wb').
Proof.
  apply (C8_rerun_same_file fresh).
  - vm_compute. reflexivity.
  - vm_compute. reflexivity.
Defined.

(** C4. Registering a defined name under a key that is already
    registered returns without raising, the new definition replaces the
    old one, every other name is as before and the set of registered
    names is unchanged. *)
Theorem C4_last_write_wins wb key old dn :
  defined_names wb !! key = Some old → name dn = key →
  ∃ wb', set_defined_name key dn wb = inr wb' ∧
    defined_names wb' !! key = Some dn ∧
    (∀ k, k ≠ key → defined_names wb' !! k = defined_names wb !! k) ∧
    dom (defined_names wb') = dom (defined_names wb) ∧
    _sheets wb' = _sheets wb.
Proof.
  intros Hold Hname. unfold set_defined_name, defined_names_setitem.
  rewrite bool_decide_eq_true_2 by done.
  eexists. split; [reflexivity|]. cbn [defined_names _sheets].
  split; [apply lookup_insert_eq|]. split; [|split; [|done]].
  - intros k Hk. by apply lookup_insert_ne.
  - apply dom_insert_lookup_L. eauto.
Qed.

Lemma C4_last_write_wins_witness :
  ∃ wb', set_defined_name "items"
           (DefinedName_attr_text "items" "'Sheet1'!$A$5:$C$12") template
         = inr wb' ∧
    defined_names wb' !! "items"
    = Some (DefinedName_attr_text "items" "'Sheet1'!$A$5:$C$12") ∧
    (∀ k, k ≠ "items" → defined_names wb' !! k = defined_names template !! k) ∧
    dom (defined_names wb') = dom (defined_names template) ∧
    _sheets wb' = _sheets template.
Proof.
  apply (C4_last_write_wins template "items"
           (DefinedName_call2 "items" "$'Sheet1'!$A$5:$C$10")).
  - vm_compute. reflexivity.
  - reflexivity.
Defined.

(** A key that differs from the name of the definition is refused with
    a [ValueError]; this is not a check for duplicates. *)
Example key_must_be_name :
  set_defined_name "items" (DefinedName_call2 "rows" "x") template
  = inl ValueError.
Proof. vm_compute. reflexivity. Qed.

(** C1. What the script registers.  After the run in a fresh directory
    each of the three names is registered, but the text the script
    passes went to the [comment] of the definition: its [attr_text] is
    [None] and the name refers to no cell.  The text would not denote a
    range either: it starts with a [$] in front of the quoted sheet
    title. *)
Theorem C1_names_refer_to_nothing :
  succeeds fresh ∧
  ∃ wb, saved fresh wb ∧
    ∀ n text, (n, text) ∈ registrations →
      ∃ dn, defined_names wb !! n = Some dn ∧
        comment dn = Some text ∧ attr_text dn = None ∧
        destination dn = None ∧ parse_sheet_range text = None.
Proof.
  split; [vm_compute; reflexivity|].
  destruct (run_success fresh) as [Hs _]; [vm_compute; reflexivity|].
  exists template. split; [exact Hs|]. clear Hs.
  intros n text Hin. unfold registrations in Hin.
  repeat (apply elem_of_cons in Hin as [Hin|Hin]);
    try (by apply elem_of_nil in Hin);
    apply pair_equal_spec in Hin as [-> ->];
    (eexists; split; [vm_compute; reflexivity|]);
    repeat split; vm_compute; reflexivity.
Qed.

(** The references the comments of the script name, given as
    [attr_text], do denote A2, B2 and A5:C10 of Sheet1. *)
Example intended_customerName :
  destination (DefinedName_attr_text "customerName" "'Sheet1'!$A$2")
  = Some {| dest_sheet := "Sheet1";
            dest_min := abs_anchor 1 2; dest_max := abs_anchor 1 2 |}.
Proof. vm_compute. reflexivity. Qed.

Example intended_orderDate :
  destination (DefinedName_attr_text "orderDate" "'Sheet1'!$B$2")
  = Some {| dest_sheet := "Sheet1";
            dest_min := abs_anchor 2 2; dest_max := abs_anchor 2 2 |}.
Proof. vm_compute. reflexivity. Qed.

Example intended_items :
  destination (DefinedName_attr_text "items" "'Sheet1'!$A$5:$C$10")
  = Some {| dest_sheet := "Sheet1";
            dest_min := abs_anchor 1 5; dest_max := abs_anchor 3 10 |}.
Proof. vm_compute. reflexivity. Qed.

(** The same texts with the [$] of the script in front denote nothing,
    also as [attr_text]. *)
Example leading_dollar_no_range :
  destination (DefinedName_attr_text "customerName" "$'Sheet1'!$A$2") = None.
Proof. vm_compute. reflexivity. Qed.
(** ** More about the directory step *)

Import Steps.

Section more_os_facts.

Implicit Types (w : World) (m : gmap Path Node) (p q name : Path).

(** How [makedirs] on a path with a parent proceeds: straight to the
    last step when the parent is there; otherwise through the parent,
    whose error other than [FileExistsError] ends the call. *)
Lemma makedirs_cons_cases x head w :
  (makedirs (x :: head) true w = mkdir_exist_ok (x :: head) true w ∧
   (head = [] ∨ is_Some (fs w !! head))) ∨
  (head ≠ [] ∧ fs w !! head = None ∧
   ((∃ e w1, makedirs head true w = (inl e, w1) ∧
       is_FileExistsError e = false ∧
       makedirs (x :: head) true w = (inl e, w1)) ∨
    (∃ r w1, makedirs head true w = (r, w1) ∧
       (r = inr tt ∨ r = inl FileExistsError) ∧
       makedirs (x :: head) true w = mkdir_exist_ok (x :: head) true w1))).
Proof.
  rewrite makedirs_cons. destruct head as [|y hh]; [left; by auto|].
  destruct (fs w !! (y :: hh)) as [n|] eqn:Hh.
  { left. rewrite bool_decide_eq_true_2 by eauto. split; [done | eauto]. }
  right. split; [done|]. split; [done|].
  rewrite bool_decide_eq_false_2 by (by intros [? ?]).
  unfold try_except.
  destruct (makedirs (y :: hh) true w) as [[e|[]] w1] eqn:Hm.
  - destruct (is_FileExistsError e) eqn:He.
    + right. exists (inl e), w1. destruct e; try discriminate He.
      split; [done|]. split; [by right | done].
    + left. by exists e, w1.
  - right. exists (inr tt), w1. split; [done|]. split; [by left | done].
Qed.

Lemma mkdir_exist_ok_other name w q :
  q ≠ name → fs (mkdir_exist_ok name true w).2 !! q = fs w !! q.
Proof.
  intros Hq.
  destruct (mkdir_exist_ok_cases name w)
    as [(x & parent & Hx & Hp & Hn & Hk)|[(d & _ & Hk)|(e & Hk)]];
    rewrite Hk; cbn [snd fs set_fs]; [|done..].
  by rewrite lookup_insert_ne.
Qed.


(** [makedirs] changes nothing but the entries on the way to [name]. *)
Lemma makedirs_other name w q :
  q = [] ∨ ¬ q `suffix_of` name →
  fs (makedirs name true w).2 !! q = fs w !! q.
Proof.
  revert w. induction name as [|x head IH]; intros w Hq; [done|].
  assert (q ≠ x :: head) as Hne.
  { intros ->. destruct Hq as [Hq|Hq]; [done | by apply Hq]. }
  assert (q = [] ∨ ¬ q `suffix_of` head) as Hq'.
  { destruct Hq as [Hq|Hq]; [by left | right].
    intros Hs. apply Hq. by apply suffix_cons_r. }
  destruct (makedirs_cons_cases x head w)
    as [[Hk _]|(_ & _ & [(e & w1 & Hm & _ & Hk)|(r & w1 & Hm & _ & Hk)])];
    rewrite Hk.
  - by apply mkdir_exist_ok_other.
  - cbn [snd]. specialize (IH w Hq'). by rewrite Hm in IH.
  - rewrite mkdir_exist_ok_other by done.
    specialize (IH w Hq'). by rewrite Hm in IH.
Qed.


(** A free path that cannot be created: [makedirs] raises and has
    changed nothing. *)
Lemma makedirs_uncreatable name w :
  fs w !! name = None → creatable (fs w) name = false →
  ∃ e, makedirs name true w = (inl e, w) ∧ is_FileExistsError e = false.
Proof.
  revert w. induction name as [|x head IH]; intros w Hn Hc.
  { exists FileNotFoundError. by split. }
  simpl in Hc. rewrite Hn in Hc.
  destruct (makedirs_cons_cases x head w)
    as [[Hk Hh]|(Hne & Hh & [(e & w1 & Hm & He & Hk)|(r & w1 & Hm & Hr & Hk)])].
  - rewrite Hk. unfold mkdir_exist_ok, try_except, mbind, M_bind, path_isdir.
    cbn [mkdir]. rewrite Hn.
    destruct Hh as [->|[n Hh]].
    + simpl in Hc.
      destruct (fs w !! []) as [[[]|fw c]|]; try discriminate Hc;
        simpl; rewrite ?Hn; eexists; by split.
    + rewrite Hh. destruct head as [|y hh]; simpl in Hc; rewrite Hh in Hc;
        destruct n as [[]|fw c]; try discriminate Hc;
        simpl; rewrite ?Hn; eexists; by split.
  - destruct (IH w Hh Hc) as (e' & Hm' & He'). rewrite Hm' in Hm.
    injection Hm as <- <-. rewrite Hk. by exists e'.
  - destruct (IH w Hh Hc) as (e' & Hm' & He'). rewrite Hm' in Hm.
    injection Hm as <- <-. destruct Hr as [Hr|Hr]; [discriminate Hr|].
    injection Hr as ->. discriminate He'.
Qed.

(** A regular file in the place of the directory: [exist_ok] does not
    cover it. *)
Lemma makedirs_on_file name fw c w :
  tree (fs w) → fs w !! name = Some (File fw c) → name ≠ [] →
  makedirs name true w = (inl FileExistsError, w).
Proof.
  intros Ht Hn Hne. destruct name as [|x head]; [done|].
  destruct (Ht _ _ _ Hn) as [d Hd].
  destruct (makedirs_cons_cases x head w)
    as [[Hk _]|(_ & Hh & _)]; [|congruence].
  rewrite Hk.
  unfold mkdir_exist_ok, try_except, mbind, M_bind, path_isdir, mkdir.
  rewrite Hd, Hn. simpl. by rewrite Hn.
Qed.

(** In a tree, [makedirs] with [exist_ok] returns exactly when nothing
    stands in the way; when it raises it has changed nothing. *)
Lemma makedirs_not_ready name w :
  tree (fs w) → ready (fs w) name = false → name ≠ [] →
  ∃ e, makedirs name true w = (inl e, w).
Proof.
  intros Ht Hr Hne. unfold ready in Hr.
  destruct (fs w !! name) as [[d|fw c]|] eqn:Hn; [done| |].
  - exists FileExistsError. by apply makedirs_on_file with fw c.
  - destruct (makedirs_uncreatable name w Hn Hr) as (e & Hm & _). by exists e.
Qed.

(** X10. In a tree-shaped file system [os.makedirs(name, exist_ok=True)]
    on any path returns exactly when [name] is a directory or is free
    below a directory that can be written; when it returns, the missing
    directories on the way are there and nothing else has changed, and
    when it raises, nothing has changed. *)
Theorem makedirs_returns_iff name w :
  is_tree (fs w) = true → name ≠ [] →
  ((makedirs name true w).1 = inr tt ↔ ready (fs w) name = true) ∧
  ((makedirs name true w).1 = inr tt →
   (makedirs name true w).2 = set_fs (with_dirs (fs w) name) w) ∧
  ((makedirs name true w).1 ≠ inr tt → (makedirs name true w).2 = w).
Proof.
  intros Ht%is_tree_sound Hne.
  destruct (ready (fs w) name) eqn:Hr.
  - rewrite (makedirs_ready name w) by done. cbn [fst snd].
    split; [done|]. split; [done|]. by intros [].
  - destruct (makedirs_not_ready name w) as [e He]; [done..|].
    rewrite He. cbn [fst snd]. split; [|done].
    split; discriminate.
Qed.

Lemma makedirs_returns_iff_witness :
  ((makedirs (path_of output_dir) true {| fs := fresh; stdout := [] |}).1
   = inr tt ↔ ready fresh (path_of output_dir) = true) ∧
  ((makedirs (path_of output_dir) true {| fs := fresh; stdout := [] |}).1
   = inr tt →
   (makedirs (path_of output_dir) true {| fs := fresh; stdout := [] |}).2
   = set_fs (with_dirs fresh (path_of output_dir))
            {| fs := fresh; stdout := [] |}) ∧
  ((makedirs (path_of output_dir) true {| fs := fresh; stdout := [] |}).1
   ≠ inr tt →
   (makedirs (path_of output_dir) true {| fs := fresh; stdout := [] |}).2
   = {| fs := fresh; stdout := [] |}).
Proof.
  apply (makedirs_returns_iff (path_of output_dir)
           {| fs := fresh; stdout := [] |}).
  - vm_compute. reflexivity.
  - vm_compute. discriminate.
Defined.

End more_os_facts.

(** ** More about a run *)

Section more_run_facts.

Implicit Types (files : gmap Path Node).

Lemma write_file_error p c w e w' :
  write_file p c w = (inl e, w') → is_OSError e = true ∧ w' = w.
Proof.
  destruct p as [|x parent]; simpl.
  { intros Heq. by simplify_eq. }
  destruct (fs w !! parent) as [[[]|fw' c']|];
    destruct (fs w !! (x :: parent)) as [[dd|[] old]|];
    intros Heq; by simplify_eq.
Qed.

(** The file system a run leaves: what the directory step left, with or
    without the workbook at the output path. *)
Lemma run_fs files :
  let w1 := (makedirs (path_of output_dir) true
               {| fs := files; stdout := [] |}).2 in
  (fs (run files).2 = fs w1 ∧ ∃ e, (run files).1 = inl e) ∨
  (fs (run files).2
   = <[path_of output_path := File true (Xlsx template)]> (fs w1) ∧
   (run files).1 = inr tt ∧
   (∃ d, fs w1 !! path_of output_dir = Some (Dir d)) ∧
   (∀ dd, fs w1 !! path_of output_path ≠ Some (Dir dd))).
Proof.
  intros w1. subst w1. rewrite run_eq.
  destruct (makedirs _ _ _) as [[e|[]] w1]; cbn [snd].
  { left. split; [reflexivity | by exists e]. }
  unfold save. rewrite output_path_path.
  destruct (write_file_cases ("example.xlsx" :: path_of output_dir)
              (Xlsx template) w1)
    as [(x & parent & d & Hp & Hd & Hnd & Hk)|(e & Hk)]; rewrite Hk.
  - right. injection Hp as <- <-. cbn [fst snd fs set_fs].
    split; [reflexivity|]. split; [reflexivity|]. split; [by exists d | exact Hnd].
  - left. cbn [fst snd]. split; [reflexivity | by exists e].
Qed.

Lemma touched_paths :
  touched = [ ["config-repo"];
              ["common-templates"; "config-repo"];
              ["templates"; "common-templates"; "config-repo"];
              ["example.xlsx"; "templates"; "common-templates";
               "config-repo"] ].
Proof. vm_compute. reflexivity. Qed.

(** X1. Whatever the file system and however the run ends, it leaves
    every path other than the three directories and the output file as
    it was, and the only entry it can replace is the one at the output
    path. *)
Theorem run_touches_only files :
  (∀ q, q ∉ touched → fs (run files).2 !! q = files !! q) ∧
  (∀ q n, q ≠ path_of output_path → files !! q = Some n →
     fs (run files).2 !! q = Some n).
Proof.
  pose proof (makedirs_grows (path_of output_dir)
                {| fs := files; stdout := [] |}) as (_ & _ & Hkeep).
  pose proof (makedirs_other (path_of output_dir)
                {| fs := files; stdout := [] |}) as Hother.
  cbn [fs] in Hkeep, Hother.
  destruct (run_fs files) as [[Hfs _]|[Hfs _]]; rewrite Hfs; clear Hfs.
  all: rewrite touched_paths, output_path_path, output_dir_path in *.
  all: split.
  - intros q Hq. apply Hother.
    destruct q as [|x q]; [by left | right].
    intros Hs. apply Hq.
    repeat (apply suffix_cons_cases in Hs as [->|Hs];
            [rewrite !elem_of_cons; by auto 10|]).
    by apply suffix_nil_inv in Hs.
  - intros q n _. apply Hkeep.
  - intros q Hq. rewrite lookup_insert_ne.
    + apply Hother. destruct q as [|x q]; [by left | right].
      intros Hs. apply Hq.
      repeat (apply suffix_cons_cases in Hs as [->|Hs];
              [rewrite !elem_of_cons; by auto 10|]).
      by apply suffix_nil_inv in Hs.
    + intros <-. apply Hq. rewrite !elem_of_cons. by auto 10.
  - intros q n Hq Hn. rewrite lookup_insert_ne by done. by apply Hkeep.
Qed.

(** X3. A run keeps the file system a tree, whether it returns or
    raises. *)
Theorem run_keeps_tree files :
  is_tree files = true → tree (fs (run files).2).
Proof.
  intros Ht%is_tree_sound.
  pose proof (makedirs_grows (path_of output_dir)
                {| fs := files; stdout := [] |}) as (_ & Ht1 & _).
  specialize (Ht1 Ht).
  destruct (run_fs files) as [[Hfs _]|(Hfs & _ & [d Hd] & Hnd)];
    rewrite Hfs; clear Hfs; [exact Ht1|].
  rewrite output_path_path in *. by apply tree_insert_file with d.
Qed.

Lemma run_keeps_tree_witness : tree (fs (run fresh).2).
Proof. apply (run_keeps_tree fresh). vm_compute. reflexivity. Defined.



(** X5. When a regular file takes the place of the output directory the
    run raises [FileExistsError], prints nothing and leaves the file
    system as it was: [exist_ok=True] covers an existing directory
    only. *)
Theorem run_directory_is_file files fw c :
  is_tree files = true →
  files !! path_of output_dir = Some (File fw c) →
  run files = (inl FileExistsError, {| fs := files; stdout := [] |}).
Proof.
  intros Ht%is_tree_sound Hf. rewrite run_eq.
  rewrite (makedirs_on_file (path_of output_dir) fw c);
    [reflexivity | exact Ht | exact Hf | by rewrite output_dir_path].
Qed.

Lemma run_directory_is_file_witness :
  run dir_is_file = (inl FileExistsError, {| fs := dir_is_file; stdout := [] |}).
Proof.
  apply (run_directory_is_file dir_is_file true (Bytes "x")).
  - vm_compute. reflexivity.
  - vm_compute. reflexivity.
Defined.

(** X2. In a tree-shaped file system the run returns exactly when
    nothing stands in the way of the directory ([ready]) and the output
    file can be written ([can_save]). *)
Theorem run_succeeds_iff files :
  is_tree files = true →
  (succeeds files ↔
   ready files (path_of output_dir) = true ∧ can_save files = true).
Proof.
  intros Ht%is_tree_sound. unfold succeeds, can_save. rewrite run_eq.
  rewrite output_path_path.
  destruct (ready files (path_of output_dir)) eqn:Hr.
  2: { destruct (makedirs_not_ready (path_of output_dir)
                   {| fs := files; stdout := [] |}) as [e He];
         [exact Ht | exact Hr | by rewrite output_dir_path |].
       rewrite He. cbn [fst]. split; [discriminate | intros [? _]; discriminate]. }
  rewrite (makedirs_ready (path_of output_dir));
    [| exact Ht | exact Hr | by rewrite output_dir_path].
  cbn [fs]. unfold save. rewrite output_path_path.
  set (dir := path_of output_dir) in *.
  assert (with_dirs files dir !! ("example.xlsx" :: dir)
          = files !! ("example.xlsx" :: dir)) as Hout.
  { apply with_dirs_other. right. apply not_suffix_cons. }
  assert (with_dirs files dir !! dir
          = Some (Dir (match files !! dir with
                       | Some (Dir d) => d
                       | _ => true
                       end))) as Hdir.
  { unfold ready in Hr. unfold dir in *. rewrite output_dir_path in *.
    destruct (files !! ["templates"; "common-templates"; "config-repo"])
      as [[d|fw c]|] eqn:Hd; [| discriminate Hr |].
    - simpl. by rewrite Hd.
    - by apply with_dirs_self. }
  unfold write_file, set_fs. cbn [fs]. rewrite Hdir, Hout.
  destruct (files !! ("example.xlsx" :: dir)) as [[dd|[] old]|];
    destruct (files !! dir) as [[[]|fw c]|]; cbn [fst];
    split; try discriminate; try (intros [_ ?]; discriminate);
    try (intros _; split; reflexivity); try reflexivity.
Qed.

Lemma run_succeeds_iff_witness :
  succeeds fresh ↔
  ready fresh (path_of output_dir) = true ∧ can_save fresh = true.
Proof. apply (run_succeeds_iff fresh). vm_compute. reflexivity. Defined.

(** X9. In a tree-shaped file system a run that raises has changed
    nothing and printed nothing: the directory step raises before it
    creates anything, and a save can only fail when the directory was
    there already.  (The failures are those of the model: a missing or
    unwritable directory, a file or a directory in the way.) *)
Theorem failed_run_changes_nothing files e :
  is_tree files = true → (run files).1 = inl e →
  (run files).2 = {| fs := files; stdout := [] |}.
Proof.
  intros Ht%is_tree_sound. rewrite run_eq.
  destruct (ready files (path_of output_dir)) eqn:Hr.
  2: { destruct (makedirs_not_ready (path_of output_dir)
                   {| fs := files; stdout := [] |}) as [e' He'];
         [exact Ht | exact Hr | by rewrite output_dir_path |].
       rewrite He'. reflexivity. }
  rewrite (makedirs_ready (path_of output_dir));
    [| exact Ht | exact Hr | by rewrite output_dir_path].
  cbn [fs]. unfold save. rewrite output_path_path.
  set (dir := path_of output_dir) in *.
  destruct (files !! dir) as [n|] eqn:Hd.
  - assert (with_dirs files dir = files) as ->.
    { unfold dir in *. rewrite output_dir_path in *. simpl. by rewrite Hd. }
    destruct (write_file _ _ _) as [[e2|[]] w2] eqn:Hw; cbn [fst snd].
    + intros _. by apply write_file_error in Hw as [_ ->].
    + discriminate.
  - assert (files !! ("example.xlsx" :: dir) = None) as Hout.
    { destruct (files !! ("example.xlsx" :: dir)) as [n|] eqn:Ho; [|done].
      destruct (Ht _ _ _ Ho) as [d Hd']. congruence. }
    assert (with_dirs files dir !! ("example.xlsx" :: dir) = None) as Hout'.
    { rewrite with_dirs_other; [done|]. right. apply not_suffix_cons. }
    assert (with_dirs files dir !! dir = Some (Dir true)) as Hdir.
    { unfold dir in *. rewrite output_dir_path in *. by apply with_dirs_self. }
    unfold write_file, set_fs. cbn [fs]. rewrite Hdir, Hout'. cbn [fst].
    discriminate.
Qed.

Lemma failed_run_changes_nothing_witness :
  (run blocked).2 = {| fs := blocked; stdout := [] |}.
Proof.
  apply (failed_run_changes_nothing blocked NotADirectoryError).
  - vm_compute. reflexivity.
  - vm_compute. reflexivity.
Defined.

End more_run_facts.

(** ** The cell statements on any workbook *)

Section cell_facts.

Implicit Types (ws : Worksheet) (wb : Workbook) (rc : nat * nat) (c : Cell).

Lemma build_in_stages :
  build = (let wb := Workbook_init in
           let sheet := active wb in
           wb ← set_sheet_title sheet "Sheet1" wb;
           wb ← write_cells sheet wb;
           names_and_widths sheet wb).
Proof. vm_compute. reflexivity. Qed.

Lemma Res_bind_inr {A B} (f : A → Res B) (x : A) : mbind f (inr x : Res A) = f x.
Proof. reflexivity. Qed.

Lemma on_sheet_ok i ws ws' (f : Worksheet → Res Worksheet) wb :
  _sheets wb !! i = Some ws → f ws = inr ws' →
  on_sheet (Some i) f wb = inr (set_sheet i ws' wb).
Proof.
  intros Hl Hf. unfold on_sheet. simpl. rewrite Hl. simpl. by rewrite Hf.
Qed.

Lemma set_sheet_lookup i ws ws' wb :
  _sheets wb !! i = Some ws → _sheets (set_sheet i ws' wb) !! i = Some ws'.
Proof.
  intros Hl. simpl. apply list_lookup_insert_eq. by eapply lookup_lt_Some.
Qed.

Lemma set_sheet_set_sheet i ws1 ws2 wb :
  set_sheet i ws2 (set_sheet i ws1 wb) = set_sheet i ws2 wb.
Proof. unfold set_sheet. simpl. by rewrite list_insert_insert_eq. Qed.

Lemma set_sheet_same i ws wb :
  _sheets wb !! i = Some ws → set_sheet i ws wb = wb.
Proof.
  intros Hl. unfold set_sheet. rewrite list_insert_id by done. by destruct wb.
Qed.

Lemma update_cell_ok key rc (f : Cell → Res Cell) c' ws :
  coordinate_to_tuple key = inr rc → f (_get_cell rc ws) = inr c' →
  update_cell key f ws = inr (set_cell rc c' ws).
Proof. intros Hk Hf. unfold update_cell. rewrite Hk. simpl. by rewrite Hf. Qed.

Lemma get_set_cell rc rc' c ws :
  _get_cell rc (set_cell rc' c ws)
  = if decide (rc' = rc) then c else _get_cell rc ws.
Proof.
  unfold _get_cell, set_cell. simpl. rewrite lookup_insert.
  by case_decide.
Qed.

Lemma substring_all v n : String.length v ≤ n → String.substring 0 n v = v.
Proof.
  revert n. induction v as [|a v IH]; intros [|n] Hn; simpl in *;
    try reflexivity; try lia.
  f_equal. apply IH. lia.
Qed.

Lemma set_value_plain v c :
  plain_text v = true → set_value v c = inr (put_text v c).
Proof.
  unfold plain_text, set_value.
  rewrite !andb_true_iff, !negb_true_iff, Nat.leb_le.
  intros [[[Hlen Hill] Hf] He].
  rewrite substring_all by done. by rewrite Hill, Hf, He.
Qed.

Lemma opt_dollar_alpha a s :
  is_alpha a = true → opt_dollar (String a s) = (false, String a s).
Proof.
  destruct a as [[] [] [] [] [] [] [] []]; intros Ha;
    try reflexivity; vm_compute in Ha; discriminate Ha.
Qed.

Lemma span_alpha_digit col d rest :
  string_forall is_alpha col = true → is_alpha d = false →
  span is_alpha (col +:+ String d rest) = (col, String d rest).
Proof.
  intros Hcol Hd. induction col as [|a col IH]; simpl.
  - by rewrite Hd.
  - simpl in Hcol. apply andb_true_iff in Hcol as [Ha Hcol].
    rewrite Ha. by rewrite IH.
Qed.

(** The key the loop builds for a column name is the cell of row 4 in
    that column. *)
Lemma column_key col :
  is_column_name col = true →
  coordinate_to_tuple (col +:+ "4") = inr (4, column_index_from_string col).
Proof.
  unfold is_column_name. rewrite !andb_true_iff.
  intros [[Halpha Hlo] Hhi].
  unfold coordinate_to_tuple, coordinate_from_string.
  destruct col as [|a col]; [discriminate Hlo|].
  change (String a col +:+ "4") with (String a (col +:+ "4")).
  assert (is_alpha a = true) as Ha.
  { simpl in Halpha. by apply andb_true_iff in Halpha as [? _]. }
  rewrite (opt_dollar_alpha a) by done.
  change (String a (col +:+ "4")) with (String a col +:+ "4").
  rewrite (span_alpha_digit (String a col) "4" EmptyString) by done.
  change (opt_dollar "4") with (false, "4").
  change (span is_digit "4") with ("4", EmptyString).
  rewrite Hlo, Hhi. reflexivity.
Qed.

Lemma header_style_twice c : header_style (header_style c) = header_style c.
Proof. reflexivity. Qed.

Lemma light_gray_fill : PatternFill_init "CCCCCC" "CCCCCC" "solid" = inr light_gray.
Proof. vm_compute. reflexivity. Qed.

(** One turn of the loop. *)
Lemma style_column_ok i ws wb col :
  _sheets wb !! i = Some ws → is_column_name col = true →
  let rc := (4, column_index_from_string col) in
  (wb1 ← on_sheet (Some i) (setitem_font (col +:+ "4") (Font_bold true)) wb;
   f ← PatternFill_init "CCCCCC" "CCCCCC" "solid";
   on_sheet (Some i) (setitem_fill (col +:+ "4") f) wb1)
  = inr (set_sheet i (set_cell rc (header_style (_get_cell rc ws)) ws) wb).
Proof.
  intros Hl Hcol rc.
  rewrite (on_sheet_ok i ws
             (set_cell rc (set_font (Font_bold true) (_get_cell rc ws)) ws));
    [| done | by apply update_cell_ok; [apply column_key|]].
  rewrite Res_bind_inr, light_gray_fill, Res_bind_inr.
  erewrite on_sheet_ok;
    [| by eapply set_sheet_lookup
     | by apply update_cell_ok; [apply column_key|] ].
  rewrite set_sheet_set_sheet. f_equal.
  rewrite get_set_cell. rewrite decide_True by done.
  unfold set_cell. simpl. by rewrite insert_insert_eq.
Qed.

(** The loop by induction on the list of columns. *)
Lemma style_columns_cells cols i ws wb :
  _sheets wb !! i = Some ws → forallb is_column_name cols = true →
  ∃ ws', style_columns (Some i) cols wb = inr (set_sheet i ws' wb) ∧
    title ws' = title ws ∧
    column_dimensions ws' = column_dimensions ws ∧
    ∀ rc, _cells ws' !! rc
          = if bool_decide (rc ∈ row4 cols)
            then Some (header_style (_get_cell rc ws))
            else _cells ws !! rc.
Proof.
  revert ws wb. induction cols as [|col cols IH]; intros ws wb Hl Hcols.
  { exists ws. simpl. split; [by rewrite set_sheet_same|]. by repeat split. }
  simpl in Hcols. apply andb_true_iff in Hcols as [Hcol Hcols].
  unfold style_columns. cbn [for_each].
  rewrite (style_column_ok i ws wb col) by done.
  rewrite Res_bind_inr.
  set (rc0 := (4, column_index_from_string col)).
  set (ws1 := set_cell rc0 (header_style (_get_cell rc0 ws)) ws).
  destruct (IH ws1 (set_sheet i ws1 wb)) as (ws' & Hrun & Ht & Hcd & Hcells);
    [by eapply set_sheet_lookup | done |].
  exists ws'. unfold style_columns in Hrun. rewrite Hrun.
  rewrite set_sheet_set_sheet. split; [done|]. split; [done|]. split; [done|].
  intros rc. rewrite Hcells. unfold row4. rewrite fmap_cons. fold (row4 cols).
  fold rc0.
  assert (_get_cell rc ws1
          = if decide (rc0 = rc) then header_style (_get_cell rc0 ws)
            else _get_cell rc ws) as Hg by apply get_set_cell.
  assert (_cells ws1 !! rc
          = if decide (rc0 = rc) then Some (header_style (_get_cell rc0 ws))
            else _cells ws !! rc) as Hc.
  { unfold ws1, set_cell. simpl. rewrite lookup_insert. by case_decide. }
  rewrite Hg, Hc. clear Hg Hc.
  destruct (decide (rc0 = rc)) as [<-|Hne].
  - rewrite (bool_decide_eq_true_2 (rc0 ∈ rc0 :: row4 cols))
      by apply list_elem_of_here.
    by case_bool_decide.
  - case_bool_decide as Hin.
    + rewrite bool_decide_eq_true_2; [done|]. by apply list_elem_of_further.
    + rewrite bool_decide_eq_false_2; [done|].
      intros [?|?]%elem_of_cons; [by apply Hne | by apply Hin].
Qed.

(** X7. The loop of lines 31-33, run over any list of column names on
    any sheet, gives the cells of row 4 in those columns the bold font
    and the gray fill, keeps what else these cells hold, and leaves
    every other cell, the title and the column widths alone. *)
Theorem style_columns_row4 cols i ws wb :
  _sheets wb !! i = Some ws → forallb is_column_name cols = true →
  ∃ ws', style_columns (Some i) cols wb = inr (set_sheet i ws' wb) ∧
    title ws' = title ws ∧
    column_dimensions ws' = column_dimensions ws ∧
    ∀ rc, _cells ws' !! rc
          = if bool_decide (rc ∈ row4 cols)
            then Some (header_style (_get_cell rc ws))
            else _cells ws !! rc.
Proof. apply style_columns_cells. Qed.

Lemma style_columns_row4_witness :
  ∃ ws', style_columns (Some 0) ["A"; "bc"; "XFD"] Workbook_init
         = inr (set_sheet 0 ws' Workbook_init) ∧
    title ws' = title (Worksheet_init "Sheet") ∧
    column_dimensions ws' = column_dimensions (Worksheet_init "Sheet") ∧
    ∀ rc, _cells ws' !! rc
          = if bool_decide (rc ∈ row4 ["A"; "bc"; "XFD"])
            then Some (header_style (_get_cell rc (Worksheet_init "Sheet")))
            else _cells (Worksheet_init "Sheet") !! rc.
Proof.
  apply (style_columns_row4 ["A"; "bc"; "XFD"] 0 (Worksheet_init "Sheet")
           Workbook_init).
  - reflexivity.
  - vm_compute. reflexivity.
Defined.

Lemma row4_ABC : row4 ["A"; "B"; "C"] = [(4, 1); (4, 2); (4, 3)].
Proof. vm_compute. reflexivity. Qed.

Lemma cell_keys :
  coordinate_to_tuple "A1" = inr (1, 1) ∧
  coordinate_to_tuple "B1" = inr (1, 2) ∧
  coordinate_to_tuple "A2" = inr (2, 1) ∧
  coordinate_to_tuple "B2" = inr (2, 2) ∧
  coordinate_to_tuple "A4" = inr (4, 1) ∧
  coordinate_to_tuple "B4" = inr (4, 2) ∧
  coordinate_to_tuple "C4" = inr (4, 3).
Proof. vm_compute. repeat split; reflexivity. Qed.

Ltac cell_key :=
  destruct cell_keys as (K1 & K2 & K3 & K4 & K5 & K6 & K7);
  first [ exact K1 | exact K2 | exact K3 | exact K4
        | exact K5 | exact K6 | exact K7 ].

Ltac decide_pairs :=
  repeat match goal with
         | |- context [decide (?a = ?b)] =>
             first [ rewrite (decide_True (P := a = b)) by reflexivity
                   | rewrite (decide_False (P := a = b)) by discriminate ]
         end.

Ltac cell_step :=
  erewrite on_sheet_ok;
  [ rewrite Res_bind_inr
  | first [ eassumption | eapply set_sheet_lookup; eassumption ]
  | apply update_cell_ok;
    [ cell_key
    | first [ apply set_value_plain; vm_compute; reflexivity
            | reflexivity ] ] ];
  rewrite ?set_sheet_set_sheet, ?get_set_cell; decide_pairs.

Ltac not_among H :=
  repeat (apply elem_of_cons in H as [H|H]; [discriminate H|]);
  by apply elem_of_nil in H.

(** X6. The cell statements of lines 17-33, run on any sheet of any
    workbook, return; they replace the text of A1, B1, A2, B2, A4, B4
    and C4, make A1, B1, A4, B4 and C4 bold and fill A4, B4 and C4 gray;
    whatever fill A1 and B1 and whatever font and fill A2 and B2 had is
    kept, and every other cell, the title and the column widths are as
    before. *)
Theorem write_cells_footprint i ws wb :
  _sheets wb !! i = Some ws →
  ∃ ws', write_cells (Some i) wb = inr (set_sheet i ws' wb) ∧
    title ws' = title ws ∧
    column_dimensions ws' = column_dimensions ws ∧
    (∀ rc, rc ∉ coordinates ["A1"; "B1"; "A2"; "B2"; "A4"; "B4"; "C4"] →
       _cells ws' !! rc = _cells ws !! rc) ∧
    cell ws' "A1"
    = Some (set_font (Font_bold true)
              (put_text "Customer Name" (found ws "A1"))) ∧
    cell ws' "B1"
    = Some (set_font (Font_bold true) (put_text "Date" (found ws "B1"))) ∧
    cell ws' "A2" = Some (put_text "${customerName}" (found ws "A2")) ∧
    cell ws' "B2" = Some (put_text "${orderDate}" (found ws "B2")) ∧
    cell ws' "A4" = Some (header_style (put_text "Item" (found ws "A4"))) ∧
    cell ws' "B4" = Some (header_style (put_text "Qty" (found ws "B4"))) ∧
    cell ws' "C4" = Some (header_style (put_text "Price" (found ws "C4"))).
Proof.
  intros Hl. unfold write_cells, setitem, setitem_font.
  do 9 cell_step.
  match goal with
  | |- context [style_columns _ _ (set_sheet i ?w wb)] => set (ws9 := w)
  end.
  destruct (style_columns_cells ["A"; "B"; "C"] i ws9 (set_sheet i ws9 wb))
    as (ws' & Hrun & Ht & Hcd & Hcells);
    [eapply set_sheet_lookup; eassumption | reflexivity |].
  rewrite set_sheet_set_sheet in Hrun. rewrite row4_ABC in Hcells.
  exists ws'. split; [exact Hrun|]. split; [by rewrite Ht|].
  split; [by rewrite Hcd|].
  assert (coordinates ["A1"; "B1"; "A2"; "B2"; "A4"; "B4"; "C4"]
          = [(1, 1); (1, 2); (2, 1); (2, 2); (4, 1); (4, 2); (4, 3)]) as E7
    by (vm_compute; reflexivity).
  rewrite E7. unfold found, cell.
  destruct cell_keys as (K1 & K2 & K3 & K4 & K5 & K6 & K7).
  rewrite K1, K2, K3, K4, K5, K6, K7. clear K1 K2 K3 K4 K5 K6 K7.
  fold (_get_cell (1, 1) ws). fold (_get_cell (1, 2) ws).
  fold (_get_cell (2, 1) ws). fold (_get_cell (2, 2) ws).
  fold (_get_cell (4, 1) ws). fold (_get_cell (4, 2) ws).
  fold (_get_cell (4, 3) ws).
  split.
  { intros rc Hrc. rewrite Hcells.
    rewrite bool_decide_eq_false_2.
    2: { intros Hin. apply Hrc.
         repeat (apply elem_of_cons in Hin as [->|Hin];
                 [rewrite !elem_of_cons; by auto 10|]).
         by apply elem_of_nil in Hin. }
    unfold ws9, set_cell. simpl.
    rewrite !lookup_insert_ne; [done|..];
      intros <-; apply Hrc; rewrite !elem_of_cons; auto 10. }
  rewrite !Hcells.
  repeat (rewrite bool_decide_eq_true_2 by (rewrite !elem_of_cons; auto 10)).
  repeat (rewrite bool_decide_eq_false_2 by (intros Hin; not_among Hin)).
  unfold ws9. rewrite ?get_set_cell. decide_pairs.
  unfold set_cell. simpl.
  repeat split;
    repeat first [ rewrite lookup_insert_eq
                 | rewrite lookup_insert_ne by discriminate ];
    reflexivity.
Qed.

Lemma write_cells_footprint_witness :
  ∃ ws', write_cells (Some 0) Workbook_init
         = inr (set_sheet 0 ws' Workbook_init) ∧
    title ws' = title (Worksheet_init "Sheet") ∧
    column_dimensions ws' = column_dimensions (Worksheet_init "Sheet") ∧
    (∀ rc, rc ∉ coordinates ["A1"; "B1"; "A2"; "B2"; "A4"; "B4"; "C4"] →
       _cells ws' !! rc = _cells (Worksheet_init "Sheet") !! rc) ∧
    cell ws' "A1"
    = Some (set_font (Font_bold true)
              (put_text "Customer Name" (found (Worksheet_init "Sheet") "A1"))) ∧
    cell ws' "B1"
    = Some (set_font (Font_bold true)
              (put_text "Date" (found (Worksheet_init "Sheet") "B1"))) ∧
    cell ws' "A2"
    = Some (put_text "${customerName}" (found (Worksheet_init "Sheet") "A2")) ∧
    cell ws' "B2"
    = Some (put_text "${orderDate}" (found (Worksheet_init "Sheet") "B2")) ∧
    cell ws' "A4"
    = Some (header_style (put_text "Item" (found (Worksheet_init "Sheet") "A4"))) ∧
    cell ws' "B4"
    = Some (header_style (put_text "Qty" (found (Worksheet_init "Sheet") "B4"))) ∧
    cell ws' "C4"
    = Some (header_style (put_text "Price" (found (Worksheet_init "Sheet") "C4"))).
Proof.
  apply (write_cells_footprint 0 (Worksheet_init "Sheet") Workbook_init).
  reflexivity.
Defined.

Lemma set_defined_name_ok key dn wb :
  name dn = key →
  set_defined_name key dn wb
  = inr {| _sheets := _sheets wb;
           _active_sheet_index := _active_sheet_index wb;
           defined_names := <[key := dn]> (defined_names wb) |}.
Proof.
  intros Hk. unfold set_defined_name, defined_names_setitem.
  by rewrite bool_decide_eq_true_2.
Qed.

Lemma set_column_width_lookup key w ws k :
  column_dimensions (set_column_width key w ws) !! k
  = if decide (key = k)
    then Some (set_width w (default (ColumnDimension_init key)
                                    (column_dimensions ws !! key)))
    else column_dimensions ws !! k.
Proof.
  unfold set_column_width. simpl. rewrite lookup_insert. by case_decide.
Qed.

(** X8. The statements of lines 35-50, run on any workbook: the three
    names are registered with the definitions of the script, replacing
    what was registered under them, and no other name changes; columns
    A, B and C get the widths 15, 15 and 12 and keep what else their
    dimensions hold; the cells, the title and the other columns of the
    sheet are as before. *)
Theorem names_and_widths_footprint i ws wb :
  _sheets wb !! i = Some ws →
  ∃ ws' wb', names_and_widths (Some i) wb = inr wb' ∧
    _sheets wb' = <[i := ws']> (_sheets wb) ∧
    title ws' = title ws ∧ _cells ws' = _cells ws ∧
    column_dimensions ws' !! "A"
    = Some (set_width 15 (default (ColumnDimension_init "A")
                                  (column_dimensions ws !! "A"))) ∧
    column_dimensions ws' !! "B"
    = Some (set_width 15 (default (ColumnDimension_init "B")
                                  (column_dimensions ws !! "B"))) ∧
    column_dimensions ws' !! "C"
    = Some (set_width 12 (default (ColumnDimension_init "C")
                                  (column_dimensions ws !! "C"))) ∧
    (∀ k, k ∉ ["A"; "B"; "C"] →
       column_dimensions ws' !! k = column_dimensions ws !! k) ∧
    (∀ n text, (n, text) ∈ registrations →
       defined_names wb' !! n = Some (DefinedName_call2 n text)) ∧
    (∀ k, k ∉ registrations.*1 →
       defined_names wb' !! k = defined_names wb !! k).
Proof.
  intros Hl. unfold names_and_widths.
  do 3 (rewrite set_defined_name_ok by reflexivity; rewrite Res_bind_inr).
  do 2 (erewrite on_sheet_ok;
        [ rewrite Res_bind_inr
        | first [ exact Hl | eapply set_sheet_lookup; exact Hl ]
        | reflexivity ];
        rewrite ?set_sheet_set_sheet).
  erewrite on_sheet_ok;
    [ | first [ exact Hl | eapply set_sheet_lookup; exact Hl ]
      | reflexivity ].
  rewrite ?set_sheet_set_sheet.
  eexists _, _. split; [reflexivity|]. cbn.
  split; [reflexivity|]. split; [reflexivity|]. split; [reflexivity|].
  split; [|split; [|split; [|split; [|split]]]].
  - rewrite !set_column_width_lookup. by decide_pairs.
  - rewrite !set_column_width_lookup. by decide_pairs.
  - rewrite !set_column_width_lookup. by decide_pairs.
  - intros k Hk. rewrite !set_column_width_lookup.
    destruct (decide ("C" = k)) as [<-|_];
      [exfalso; apply Hk; rewrite !elem_of_cons; by auto|].
    destruct (decide ("B" = k)) as [<-|_];
      [exfalso; apply Hk; rewrite !elem_of_cons; by auto|].
    destruct (decide ("A" = k)) as [<-|_];
      [exfalso; apply Hk; rewrite !elem_of_cons; by auto|].
    reflexivity.
  - intros n text Hin. unfold registrations in Hin.
    repeat (apply elem_of_cons in Hin as [Hin|Hin]);
      try (by apply elem_of_nil in Hin);
      apply pair_equal_spec in Hin as [-> ->];
      repeat first [ rewrite lookup_insert_eq
                   | rewrite lookup_insert_ne by discriminate ];
      reflexivity.
  - intros k Hk. rewrite !lookup_insert_ne; [done|..];
      intros <-; apply Hk; unfold registrations; simpl;
      rewrite !elem_of_cons; auto.
Qed.

Lemma names_and_widths_footprint_witness :
  ∃ ws' wb', names_and_widths (Some 0) template = inr wb' ∧
    _sheets wb' = <[0 := ws']> (_sheets template) ∧
    title ws' = title template_sheet ∧ _cells ws' = _cells template_sheet ∧
    column_dimensions ws' !! "A"
    = Some (set_width 15 (default (ColumnDimension_init "A")
                                  (column_dimensions template_sheet !! "A"))) ∧
    column_dimensions ws' !! "B"
    = Some (set_width 15 (default (ColumnDimension_init "B")
                                  (column_dimensions template_sheet !! "B"))) ∧
    column_dimensions ws' !! "C"
    = Some (set_width 12 (default (ColumnDimension_init "C")
                                  (column_dimensions template_sheet !! "C"))) ∧
    (∀ k, k ∉ ["A"; "B"; "C"] →
       column_dimensions ws' !! k = column_dimensions template_sheet !! k) ∧
    (∀ n text, (n, text) ∈ registrations →
       defined_names wb' !! n = Some (DefinedName_call2 n text)) ∧
    (∀ k, k ∉ registrations.*1 →
       defined_names wb' !! k = defined_names template !! k).
Proof.
  apply (names_and_widths_footprint 0 template_sheet template). reflexivity.
Defined.

End cell_facts.
